(** * demandlib: the industrial load profile (particular_profiles.py)

    A shallow embedding of [IndustrialLoadProfile] and of the pandas
    operations its method [simple_profile] calls, followed by the
    properties of the generated profile.

    Numbers.  A Python [float] is a binary64 value and is embedded as the
    primitive binary64 float of the kernel: sums, products and quotients
    round to nearest, ties to even, and overflow to an infinity as
    IEEE-754 has it, zero carries a sign, and division by zero gives an
    infinity or NaN. *)

From stdpp Require Import gmap strings list fin_maps numbers.
From Stdlib Require Import Floats.

Local Open Scope Z_scope.

(** ** Floating-point values *)

Module Float.

Abbreviation float := PrimFloat.float.

Definition zero : float := 0%float.

Definition NaN : float := PrimFloat.nan.

(** [float(z)] for a Python integer [z]: the nearest binary64 value (the
    integers converted here are small or 64-bit, far from overflow). *)
Definition of_Z (z : Z) : float :=
  SF2Prim (binary_normalize prec emax z 0 false).

(** The literal [n / d], e.g. [lit 8 10] for 0.8: the binary64 value
    nearest to the quotient. *)
Definition lit (n : Z) (d : positive) : float :=
  (of_Z n / of_Z (Z.pos d))%float.

(** [numpy.isnan]. *)
Definition isnan (x : float) : bool :=
  match classify x with
  | FloatClass.NaN => true
  | _ => false
  end.


(** [x + y], [x * y], [x / y] and [x == y] on binary64 values; dividing
    an array by zero gives NaN or an infinity, never an exception. *)
Abbreviation add := PrimFloat.add.
Abbreviation mul := PrimFloat.mul.
Abbreviation div := PrimFloat.div.
Abbreviation eqb := PrimFloat.eqb.

End Float.

Export Float.

(** ** Times of day and the time index *)

(** [datetime.time]: the source builds its defaults with
    [settime(7, 00, 0)] and [settime(23, 30, 0)]. *)
Record time : Type := mk_time {
  hour : Z;
  minute : Z;
  second : Z;
  microsecond : Z
}.

Definition settime (h m s : Z) : time := mk_time h m s 0.

(** What [datetime.time] accepts; outside it the constructor raises. *)
Definition time_valid (t : time) : Prop :=
  0 <= hour t < 24 /\ 0 <= minute t < 60 /\ 0 <= second t < 60 /\
  0 <= microsecond t < 1000000.

(** [a <= b] on naive times: the tuples (hour, minute, second,
    microsecond) compared lexicographically. *)
Definition time_leb (a b : time) : bool :=
  if hour a <? hour b then true else
  if hour b <? hour a then false else
  if minute a <? minute b then true else
  if minute b <? minute a then false else
  if second a <? second b then true else
  if second b <? second a then false else
  microsecond a <=? microsecond b.

(** pandas' [_time_to_micros]. *)
Definition time_to_micros (t : time) : Z :=
  1000000 * (hour t * 60 * 60 + 60 * minute t + second t) + microsecond t.

(** The frequency of an index: a fixed one ([Tick], hours, minutes and the
    like) with its length in nanoseconds, or one that is not fixed (months,
    business days and the like), kept by its text. *)
Inductive DateOffset : Type :=
  | Tick (nanos : Z)
  | NonFixed (repr : string).

(** A [DatetimeIndex] without time zone: the timestamps in nanoseconds
    since the epoch, and the [freq] attribute, [None] when the index has no
    frequency. *)
Record DatetimeIndex : Type := {
  values : list Z;
  freq : option DateOffset
}.

Definition nanos_per_day : Z := 24 * 3600 * 1000000000.

(** pandas' [_get_time_micros]: microseconds since midnight. *)
Definition get_time_micros (t : Z) : Z := (t `mod` nanos_per_day) `div` 1000.

(** numpy's [mask.nonzero()[0]]: the positions that hold [True]. *)
Fixpoint nonzero_from (i : nat) (mask : list bool) : list nat :=
  match mask with
  | [] => []
  | b :: rest =>
      if b then i :: nonzero_from (S i) rest else nonzero_from (S i) rest
  end.

Definition nonzero (mask : list bool) : list nat := nonzero_from 0 mask.

(** The mask of [DatetimeIndex.indexer_between_time(start_time, end_time)]
    at one timestamp.  Both [include_start] and [include_end] have their
    default [True], so both comparisons are [<=]; the two are joined by
    "and" when [start_time <= end_time] and by "or" otherwise. *)
Definition between_time_at (start_time end_time : time) (t : Z) : bool :=
  let time_micros := get_time_micros t in
  let start_micros := time_to_micros start_time in
  let end_micros := time_to_micros end_time in
  let lhs := start_micros <=? time_micros in
  let rhs := time_micros <=? end_micros in
  if time_leb start_time end_time then lhs && rhs else lhs || rhs.

Definition indexer_between_time (idx : DatetimeIndex)
    (start_time end_time : time) : list nat :=
  nonzero (between_time_at start_time end_time <$> values idx).

(** ** Series and data frames *)

(** [pd.Series(v, index=idx)]. *)
Definition Series_const {A} (v : A) (idx : DatetimeIndex) : list A :=
  replicate (length (values idx)) v.

(** [s.iloc[positions] = v]. *)
Definition iloc_assign {A} (positions : list nat) (v : A) (s : list A)
    : list A :=
  foldl (fun acc i => <[i:=v]> acc) s positions.

(** [a & b] on boolean series of one index. *)
Definition series_and (a b : list bool) : list bool := zip_with andb a b.

(** [col[mask] = v]: where the mask runs out nothing is written. *)
Fixpoint mask_assign (mask : list bool) (v : float) (col : list float)
    : list float :=
  match col, mask with
  | x :: col', b :: mask' => (if b then v else x) :: mask_assign mask' v col'
  | _, _ => col
  end.

Inductive column : Type :=
  | IntCol (l : list Z)
  | FloatCol (l : list float).

(** The values of a column read as floats. *)
Definition as_floats (c : column) : list float :=
  match c with
  | IntCol l => Float.of_Z <$> l
  | FloatCol l => l
  end.

(** [Series.isin(vals)] for a list of integer labels. *)
Definition isin (c : column) (vals : list Z) : list bool :=
  match c with
  | IntCol l => (fun w => bool_decide (w ∈ vals)) <$> l
  | FloatCol l =>
      (fun x => existsb (fun w => Float.eqb x (Float.of_Z w)) vals) <$> l
  end.

(** [Series.isnull().any()]. *)
Definition isnull_any (s : list float) : bool := existsb Float.isnan s.

(** [Series.sum()]: NaN entries are skipped ([skipna=True]) and the sum of
    nothing is 0.0.  The order in which the reduction of pandas adds the
    entries is not fixed by the source; two entries give the same sum in
    any order. *)
Definition series_sum (s : list float) : float :=
  foldr Float.add Float.zero (filter (fun x => Float.isnan x = false) s).

Record DataFrame : Type := {
  index : DatetimeIndex;
  columns : gmap string column
}.

(** [pd.DataFrame(index=dt_index)]. *)
Definition DataFrame_new (dt_index : DatetimeIndex) : DataFrame :=
  {| index := dt_index; columns := ∅ |}.

(** [df[name] = col]. *)
Definition set_column (name : string) (col : column) (df : DataFrame)
    : DataFrame :=
  {| index := index df; columns := <[name := col]> (columns df) |}.

(** [df[name] = v] for a scalar. *)
Definition set_column_const (name : string) (v : float) (df : DataFrame)
    : DataFrame :=
  set_column name (FloatCol (Series_const v (index df))) df.

(** [df.loc[mask, name] = v].  A column that does not exist yet is created
    with NaN where the mask is false. *)
Definition loc_assign (mask : list bool) (name : string) (v : float)
    (df : DataFrame) : DataFrame :=
  let old :=
    match columns df !! name with
    | Some c => as_floats c
    | None => Series_const NaN (index df)
    end in
  set_column name (FloatCol (mask_assign mask v old)) df.

(** ** The instance, its exceptions and the log *)

Inductive exn : Type :=
  | ValueError (msg : string)
  | KeyError (key : string)
  | AttributeError (msg : string).

Record IndustrialLoadProfile : Type := {
  dataframe : DataFrame
}.

(** What a method call leaves behind: the instance after the call, what it
    sent to [logging.error], and the exception raised or the value
    returned. *)
Record outcome (A : Type) : Type := {
  final : IndustrialLoadProfile;
  logged : list string;
  result : exn + A
}.
Arguments final {A} _.
Arguments logged {A} _.
Arguments result {A} _.

Definition M (A : Type) : Type := IndustrialLoadProfile → outcome A.

#[global] Instance M_ret : MRet M := λ A a self,
  {| final := self; logged := []; result := inr a |}.

#[global] Instance M_bind : MBind M := λ A B f m self,
  let o := m self in
  match result o with
  | inl e => {| final := final o; logged := logged o; result := inl e |}
  | inr a =>
      let o' := f a (final o) in
      {| final := final o'; logged := logged o ++ logged o';
         result := result o' |}
  end.

Definition raise {A} (e : exn) : M A := λ self,
  {| final := self; logged := []; result := inl e |}.

Definition logging_error (msg : string) : M unit := λ self,
  {| final := self; logged := [msg]; result := inr tt |}.

Definition get_dataframe : M DataFrame := λ self,
  {| final := self; logged := []; result := inr (dataframe self) |}.

Definition modify_dataframe (f : DataFrame → DataFrame) : M unit := λ self,
  {| final := {| dataframe := f (dataframe self) |}; logged := [];
     result := inr tt |}.

(** [self.dataframe[name]]. *)
Definition getitem (name : string) : M column :=
  df ← get_dataframe;
  match columns df !! name with
  | Some c => mret c
  | None => raise (KeyError name)
  end.

(** [d[key]] on a dict. *)
Definition dict_get {V} (d : gmap string V) (key : string) : M V :=
  match d !! key with
  | Some v => mret v
  | None => raise (KeyError key)
  end.

(** [for x in xs: body(x)]. *)
Fixpoint for_each {A} (xs : list A) (body : A → M unit) : M unit :=
  match xs with
  | [] => mret tt
  | x :: rest => body x ;; for_each rest body
  end.

Definition when (b : bool) (m : M unit) : M unit :=
  if b then m else mret tt.

(** ** Construction *)

(** Modelled from the spec: the date of a timestamp, as the number of days
    since 1970-01-01; [add_weekdays2df] of [demandlib.tools], which takes
    it, is not among the sources. *)
Definition date_of (t : Z) : Z := t `div` nanos_per_day.

(** Modelled from the spec: the ISO weekday of a timestamp, 1 = Monday to
    7 = Sunday (1970-01-01 was a Thursday). *)
Definition isoweekday (t : Z) : Z := (date_of t + 3) `mod` 7 + 1.

(** Modelled from the spec: the label [add_weekdays2df] gives a timestamp.
    Per the spec it is the ISO weekday, overridden to 0 when the date is in
    the holiday set, and, when [holiday_is_sunday] is true, Sundays are
    overridden to the holiday label 0 as well. *)
Definition weekday_label (holidays : option (gset Z))
    (holiday_is_sunday : bool) (t : Z) : Z :=
  let w := isoweekday t in
  let w :=
    match holidays with
    | Some hs => if bool_decide (date_of t ∈ hs) then 0 else w
    | None => w
    end in
  if holiday_is_sunday && (w =? 7) then 0 else w.

(** Modelled from the spec: [add_weekdays2df] of [demandlib.tools], which
    is not among the sources; it attaches the column ["weekday"] of labels
    to the frame. *)
Definition add_weekdays2df (time_df : DataFrame)
    (holiday_is_sunday : bool) (holidays : option (gset Z)) : DataFrame :=
  set_column "weekday"
    (IntCol (weekday_label holidays holiday_is_sunday
               <$> values (index time_df)))
    time_df.

(** [IndustrialLoadProfile.__init__]. *)
Definition init (dt_index : DatetimeIndex) (holidays : option (gset Z))
    (holiday_is_sunday : bool) : IndustrialLoadProfile :=
  let dataframe := DataFrame_new dt_index in
  let dataframe := add_weekdays2df dataframe holiday_is_sunday holidays in
  {| dataframe := dataframe |}.

(** ** simple_profile *)

Abbreviation factors := (gmap string (gmap string float)).

(** The keyword arguments the method reads with [kwargs.get]. *)
Record kwargs : Type := {
  kw_am : option time;
  kw_pm : option time;
  kw_week : option (list Z);
  kw_weekend : option (list Z);
  kw_holiday : option (list Z);
  kw_profile_factors : option factors
}.

Definition no_kwargs : kwargs :=
  {| kw_am := None; kw_pm := None; kw_week := None; kw_weekend := None;
     kw_holiday := None; kw_profile_factors := None |}.

Definition day_night (d n : float) : gmap string float :=
  <["day" := d]> (<["night" := n]> ∅).

Definition default_factors : factors :=
  <["week" := day_night (lit 8 10) (lit 6 10)]>
  (<["weekend" := day_night (lit 9 10) (lit 7 10)]>
  (<["holiday" := day_night (lit 9 10) (lit 7 10)]> ∅)).

(** The body of the loop that checks the profile factors. *)
Definition check_key (profile_factors : factors) (key : string) : M unit :=
  match profile_factors !! key with
  | None =>
      raise (ValueError
               ("Missing entry for '" +:+ key +:+ "' in profile_factors."))
  | Some sub =>
      if bool_decide (sub !! "day" = None) then
        raise (ValueError
                 ("Missing entry for 'day' in profile_factors for '"
                  +:+ key +:+ "'."))
      else if bool_decide (sub !! "night" = None) then
        raise (ValueError
                 ("Missing entry for 'night' in profile_factors for '"
                  +:+ key +:+ "'."))
      else mret tt
  end.

(** [self.dataframe.loc[mask, "ind"] = profile_factors[group][window]]:
    the right-hand side is evaluated first. *)
Definition assign_factor (mask : list bool) (profile_factors : factors)
    (group window : string) : M unit :=
  sub ← dict_get profile_factors group;
  v ← dict_get sub window;
  modify_dataframe (loc_assign mask "ind" v).

(** [self.dataframe.index.freq.nanos]: without a frequency there is no
    attribute to read, and a frequency that is not fixed has no [nanos]. *)
Definition freq_nanos : M Z :=
  df ← get_dataframe;
  match freq (index df) with
  | Some (Tick n) => mret n
  | Some (NonFixed repr) =>
      raise (ValueError (repr +:+ " is a non-fixed frequency"))
  | None => raise (AttributeError
                     "'NoneType' object has no attribute 'nanos'")
  end.

(** The arguments after [kwargs.get] has put in the defaults. *)
Definition arg_am (kw : kwargs) : time := default (settime 7 0 0) (kw_am kw).
Definition arg_pm (kw : kwargs) : time := default (settime 23 30 0) (kw_pm kw).
Definition arg_week (kw : kwargs) : list Z :=
  default [1; 2; 3; 4; 5] (kw_week kw).
Definition arg_weekend (kw : kwargs) : list Z := default [6; 7] (kw_weekend kw).
Definition arg_holiday (kw : kwargs) : list Z := default [0] (kw_holiday kw).
Definition arg_profile_factors (kw : kwargs) : factors :=
  default default_factors (kw_profile_factors kw).

Definition nan_message : string :=
  "NAN value found in industrial load profile".

(** [freq.nanos / 3.6e12]: the sampling interval in hours. *)
Definition time_interval_hours (nanos : Z) : float :=
  (Float.of_Z nanos / Float.of_Z 3600000000000)%float.

(** The value returned: [ind / ind.sum() * annual_demand / time_interval]. *)
Definition normalize (ind : list float) (total annual_demand
    time_interval : float) : list float :=
  (fun x => (x / total * annual_demand / time_interval)%float) <$> ind.

Definition simple_profile (annual_demand : float) (kw : kwargs)
    : M (list float) :=
  let am := arg_am kw in
  let pm := arg_pm kw in
  let week := arg_week kw in
  let weekend := arg_weekend kw in
  let holiday := arg_holiday kw in
  let profile_factors := arg_profile_factors kw in
  for_each ["week"; "weekend"; "holiday"] (check_key profile_factors) ;;
  modify_dataframe (set_column_const "ind" Float.zero) ;;
  df ← get_dataframe;
  let day_mask := indexer_between_time (index df) am pm in
  let night_mask := indexer_between_time (index df) pm am in
  let day_filter := iloc_assign day_mask true (Series_const false (index df)) in
  let night_filter :=
    iloc_assign night_mask true (Series_const false (index df)) in
  weekday ← getitem "weekday";
  let week_filter := isin weekday week in
  weekday ← getitem "weekday";
  let weekend_filter := isin weekday weekend in
  weekday ← getitem "weekday";
  let holiday_filter := isin weekday holiday in
  assign_factor (series_and day_filter week_filter)
    profile_factors "week" "day" ;;
  assign_factor (series_and night_filter week_filter)
    profile_factors "week" "night" ;;
  assign_factor (series_and day_filter weekend_filter)
    profile_factors "weekend" "day" ;;
  assign_factor (series_and night_filter weekend_filter)
    profile_factors "weekend" "night" ;;
  assign_factor (series_and day_filter holiday_filter)
    profile_factors "holiday" "day" ;;
  assign_factor (series_and night_filter holiday_filter)
    profile_factors "holiday" "night" ;;
  ind ← getitem "ind";
  when (isnull_any (as_floats ind))
    (logging_error nan_message) ;;
  nanos ← freq_nanos;
  let time_interval := time_interval_hours nanos in
  ind ← getitem "ind";
  total ← getitem "ind";
  mret (normalize (as_floats ind) (series_sum (as_floats total))
          annual_demand time_interval).

(** A run of calls on one instance, each with its own arguments. *)
Fixpoint run_calls (calls : list (float * kwargs))
    (self : IndustrialLoadProfile) : IndustrialLoadProfile :=
  match calls with
  | [] => self
  | (annual_demand, kw) :: rest =>
      run_calls rest (final (simple_profile annual_demand kw self))
  end.

(** ** Vocabulary of the properties *)

(** The column ["ind"] of an instance: the raw profile once a call has
    filled it. *)
Definition ind_column (self : IndustrialLoadProfile) : list float :=
  match columns (dataframe self) !! "ind" with
  | Some c => as_floats c
  | None => []
  end.

(** The column ["weekday"] of an instance. *)
Definition weekday_column (self : IndustrialLoadProfile) : option column :=
  columns (dataframe self) !! "weekday".

(** The instance carries integer weekday labels, one per timestamp. *)
Definition has_weekdays (self : IndustrialLoadProfile) (labels : list Z)
    : Prop :=
  weekday_column self = Some (IntCol labels) ∧
  length labels = length (values (index (dataframe self))).

(** [profile_factors[group][window]], if both keys are there. *)
Definition get_factor (pf : factors) (group window : string)
    : option float :=
  pf !! group ≫= (.!! window).

Definition groups : list string := ["week"; "weekend"; "holiday"].
Definition windows : list string := ["day"; "night"].

(** All six entries are present. *)
Definition factors_complete (pf : factors) : Prop :=
  ∀ g w, g ∈ groups → w ∈ windows → is_Some (get_factor pf g w).

(** A group key is missing, or a group that is there lacks a window key. *)
Definition missing_entry (pf : factors) : Prop :=
  ∃ g, g ∈ groups ∧
    (pf !! g = None ∨
     ∃ sub w, pf !! g = Some sub ∧ w ∈ windows ∧ sub !! w = None).

(** All of the six entries that are present satisfy [P]. *)
Definition factors_all (P : float → Prop) (pf : factors) : Prop :=
  ∀ g w x, g ∈ groups → w ∈ windows → get_factor pf g w = Some x → P x.

(** The two masks of the source at one timestamp. *)
Definition day_filter_at (kw : kwargs) (t : Z) : bool :=
  between_time_at (arg_am kw) (arg_pm kw) t.

Definition night_filter_at (kw : kwargs) (t : Z) : bool :=
  between_time_at (arg_pm kw) (arg_am kw) t.

(** The six buckets as the six assignments select them, in source order. *)
Definition bucket_filters (kw : kwargs) (t w : Z) : list bool :=
  [ day_filter_at kw t && bool_decide (w ∈ arg_week kw);
    night_filter_at kw t && bool_decide (w ∈ arg_week kw);
    day_filter_at kw t && bool_decide (w ∈ arg_weekend kw);
    night_filter_at kw t && bool_decide (w ∈ arg_weekend kw);
    day_filter_at kw t && bool_decide (w ∈ arg_holiday kw);
    night_filter_at kw t && bool_decide (w ∈ arg_holiday kw) ].

Definition count_true (l : list bool) : nat := length (filter (eq true) l).

(** The six boolean series that select the rows of the six assignments,
    built as the source builds them, in source order. *)
Definition bucket_masks (self : IndustrialLoadProfile) (kw : kwargs)
    : list (list bool) :=
  let idx := index (dataframe self) in
  let weekday := default (IntCol []) (weekday_column self) in
  let day_mask := indexer_between_time idx (arg_am kw) (arg_pm kw) in
  let night_mask := indexer_between_time idx (arg_pm kw) (arg_am kw) in
  let day_filter := iloc_assign day_mask true (Series_const false idx) in
  let night_filter := iloc_assign night_mask true (Series_const false idx) in
  let week_filter := isin weekday (arg_week kw) in
  let weekend_filter := isin weekday (arg_weekend kw) in
  let holiday_filter := isin weekday (arg_holiday kw) in
  [ series_and day_filter week_filter;
    series_and night_filter week_filter;
    series_and day_filter weekend_filter;
    series_and night_filter weekend_filter;
    series_and day_filter holiday_filter;
    series_and night_filter holiday_filter ].

(** How many of the six series hold [True] at position [i]. *)
Definition buckets_at (self : IndustrialLoadProfile) (kw : kwargs) (i : nat)
    : nat :=
  count_true ((λ m, default false (m !! i)) <$> bucket_masks self kw).

(** The half-open day window [[am, pm)] of the specification. *)
Definition half_open_day (am pm : time) (t : Z) : bool :=
  (time_to_micros am <=? get_time_micros t) &&
  (get_time_micros t <? time_to_micros pm).

(** The last group, in the order week, weekend, holiday, that holds the
    label, and the last window, in the order day, night, that holds the
    timestamp. *)
Definition last_group (kw : kwargs) (w : Z) : option string :=
  if bool_decide (w ∈ arg_holiday kw) then Some "holiday"
  else if bool_decide (w ∈ arg_weekend kw) then Some "weekend"
  else if bool_decide (w ∈ arg_week kw) then Some "week"
  else None.

Definition last_window (kw : kwargs) (t : Z) : option string :=
  if night_filter_at kw t then Some "night"
  else if day_filter_at kw t then Some "day"
  else None.

(** The raw value the last-writer-wins reading gives a timestamp. *)
Definition last_writer_value (kw : kwargs) (t w : Z) : float :=
  match last_group kw w, last_window kw t with
  | Some g, Some win =>
      default Float.zero (get_factor (arg_profile_factors kw) g win)
  | _, _ => Float.zero
  end.

(** The raw profile as a function of the index and the weekday column:
    the six masked assignments on a column of zeros. *)
Definition raw_values (idx : DatetimeIndex) (weekday : column) (kw : kwargs)
    (wd wn ed en hd hn : float) : list float :=
  let day_filter :=
    between_time_at (arg_am kw) (arg_pm kw) <$> values idx in
  let night_filter :=
    between_time_at (arg_pm kw) (arg_am kw) <$> values idx in
  let week_filter := isin weekday (arg_week kw) in
  let weekend_filter := isin weekday (arg_weekend kw) in
  let holiday_filter := isin weekday (arg_holiday kw) in
  mask_assign (series_and night_filter holiday_filter) hn
    (mask_assign (series_and day_filter holiday_filter) hd
      (mask_assign (series_and night_filter weekend_filter) en
        (mask_assign (series_and day_filter weekend_filter) ed
          (mask_assign (series_and night_filter week_filter) wn
            (mask_assign (series_and day_filter week_filter) wd
              (Series_const Float.zero idx)))))).

(** ** Concrete inputs *)

(** A day of 96 quarter hours that starts at midnight of day [d]. *)
Definition quarter_hours (d : Z) : DatetimeIndex :=
  {| values :=
       (fun i => d * nanos_per_day + Z.of_nat i * 900000000000) <$> seq 0 96;
     freq := Some (Tick 900000000000) |}.

(** The generator for Monday 1970-01-05 at quarter-hour resolution, built
    without holidays. *)
Definition monday : IndustrialLoadProfile :=
  init (quarter_hours 4) None false.

(** In that index, position 28 is 07:00, position 29 is 07:15 and
    position 94 is 23:30. *)
Definition at_0700 : Z := 4 * nanos_per_day + 28 * 900000000000.
Definition at_2330 : Z := 4 * nanos_per_day + 94 * 900000000000.

Definition with_factors (pf : factors) : kwargs :=
  {| kw_am := None; kw_pm := None; kw_week := None; kw_weekend := None;
     kw_holiday := None; kw_profile_factors := Some pf |}.


(** The default factors without the ["night"] entry of ["weekend"]. *)
Definition factors_without_night : factors :=
  <["weekend" := <["day" := lit 9 10]> ∅]> default_factors.

(** Week days without Monday: label 1 is in none of the three sets. *)
Definition week_without_monday : kwargs :=
  {| kw_am := None; kw_pm := None; kw_week := Some [2; 3; 4; 5];
     kw_weekend := None; kw_holiday := None; kw_profile_factors := None |}.

(** ** Further vocabulary and inputs *)

(** The keyword arguments with [profile_factors] replaced. *)
Definition replace_factors (kw : kwargs) (pf : factors) : kwargs :=
  {| kw_am := kw_am kw; kw_pm := kw_pm kw; kw_week := kw_week kw;
     kw_weekend := kw_weekend kw; kw_holiday := kw_holiday kw;
     kw_profile_factors := Some pf |}.

(** The three messages of the check of the profile factors. *)
Definition missing_group_message (key : string) : string :=
  "Missing entry for '" +:+ key +:+ "' in profile_factors.".

Definition missing_day_message (key : string) : string :=
  "Missing entry for 'day' in profile_factors for '" +:+ key +:+ "'.".

Definition missing_night_message (key : string) : string :=
  "Missing entry for 'night' in profile_factors for '" +:+ key +:+ "'.".

(** The filter series of lines 80 to 85 for the window from [a] to [b]. *)
Definition window_filter (idx : DatetimeIndex) (a b : time) : list bool :=
  iloc_assign (indexer_between_time idx a b) true (Series_const false idx).

(** The Monday index without a frequency, and the generator on it. *)
Definition monday_without_freq : IndustrialLoadProfile :=
  init {| values := values (quarter_hours 4); freq := None |} None false.

(** Monday to Wednesday of that week at midnight, an index at the
    frequency of business days, which is not fixed, and the generator on
    it. *)
Definition business_days : IndustrialLoadProfile :=
  init {| values := [4 * nanos_per_day; 5 * nanos_per_day; 6 * nanos_per_day];
          freq := Some (NonFixed "<BusinessDay>") |} None false.

(** The generator on an empty index that has a frequency. *)
Definition empty_generator : IndustrialLoadProfile :=
  init {| values := []; freq := Some (Tick 900000000000) |} None false.

(** [am] and [pm] both 07:00. *)
Definition equal_bounds : kwargs :=
  {| kw_am := Some (settime 7 0 0); kw_pm := Some (settime 7 0 0);
     kw_week := None; kw_weekend := None; kw_holiday := None;
     kw_profile_factors := None |}.


(** The default factors with a group and a window nobody reads. *)
Definition factors_with_extras : factors :=
  <["shift" := day_night (lit 1 2) (lit 1 3)]>
  (<["week" := <["noon" := lit 2 1]> (day_night (lit 8 10) (lit 6 10))]>
     default_factors).

(** What a call with all defaults and an annual demand of 960 returns on
    the Monday index. *)
Definition monday_profile : list float :=
  match result (simple_profile (Float.of_Z 960) no_kwargs monday) with
  | inr out => out
  | inl _ => []
  end.

(** 07:15, 07:30 and 07:45 on that Monday. *)
Definition at_0715 : Z := 4 * nanos_per_day + 29 * 900000000000.
Definition at_0730 : Z := 4 * nanos_per_day + 30 * 900000000000.
Definition at_0745 : Z := 4 * nanos_per_day + 31 * 900000000000.



(** The default factors with NaN as the day factor of the week group. *)
Definition factors_with_nan : factors :=
  <["week" := day_night NaN (lit 6 10)]> default_factors.

(** ** Special values of the binary64 arithmetic *)

Section FloatFacts.


Lemma isnan_spec (x : float) :
  Float.isnan x =
    match Prim2SF x with
    | S754_nan => true
    | _ => false
    end.
Proof.
  unfold Float.isnan. rewrite classify_spec.
  unfold SF64classify, SFclassify.
  destruct (Prim2SF x) as [[]|[]| |[] m e]; try reflexivity;
    by destruct (Z.pos (digits2_pos m) =? prec).
Qed.

Lemma isnan_NaN (x : float) : Float.isnan x = true ↔ x = NaN.
Proof.
  rewrite isnan_spec. split.
  - intros H. apply Prim2SF_inj.
    destruct (Prim2SF x); try discriminate. reflexivity.
  - intros ->. reflexivity.
Qed.




(** NaN goes through a product and a quotient. *)
Lemma nan_mul (y : float) : (NaN * y)%float = NaN.
Proof. apply Prim2SF_inj. by rewrite mul_spec. Qed.

Lemma nan_div (y : float) : (NaN / y)%float = NaN.
Proof. apply Prim2SF_inj. by rewrite div_spec. Qed.

End FloatFacts.

(** ** Masks and masked assignment *)

Section Masks.

Lemma nonzero_from_elem (mask : list bool) (k i : nat) :
  i ∈ nonzero_from k mask ↔ ∃ j, i = (k + j)%nat ∧ mask !! j = Some true.
Proof.
  revert k. induction mask as [|b rest IH]; intros k; simpl.
  - split; [by intros ?%elem_of_nil | by intros (j & _ & ?)].
  - assert (i ∈ nonzero_from (S k) rest ↔
            ∃ j, i = (k + S j)%nat ∧ rest !! j = Some true) as IH'.
    { rewrite IH. split; intros (j & -> & ?); exists j; split; auto; lia. }
    destruct b.
    + rewrite elem_of_cons, IH'. split.
      * intros [-> | (j & -> & ?)]; [exists 0%nat | exists (S j)];
          split; auto; lia.
      * intros ([|j] & -> & ?); [left; lia | right; eauto].
    + rewrite IH'. split.
      * intros (j & -> & ?). exists (S j). auto.
      * intros ([|j] & -> & ?); [done | eauto].
Qed.

Lemma iloc_assign_lookup {A} (positions : list nat) (v : A) (s : list A)
    (i : nat) :
  iloc_assign positions v s !! i =
    if bool_decide (i ∈ positions) then (λ _, v) <$> s !! i else s !! i.
Proof.
  unfold iloc_assign. revert s.
  induction positions as [|p ps IH]; intros s; simpl; [done|].
  rewrite IH. destruct (decide (i = p)) as [->|Hne].
  - rewrite (bool_decide_eq_true_2 (p ∈ p :: ps)) by (apply elem_of_cons; by left).
    destruct (decide (p < length s)%nat).
    + rewrite list_lookup_insert_eq by done.
      destruct (lookup_lt_is_Some_2 s p) as [x Hx]; [done|].
      rewrite Hx. by case_bool_decide.
    + rewrite list_insert_ge by lia.
      rewrite (lookup_ge_None_2 s p) by lia. by case_bool_decide.
  - rewrite list_lookup_insert_ne by done.
    destruct (decide (i ∈ ps)).
    + assert (i ∈ p :: ps) by (apply elem_of_cons; by right).
      by rewrite !bool_decide_eq_true_2.
    + assert (i ∉ p :: ps) by (by intros [?|?]%elem_of_cons).
      by rewrite !bool_decide_eq_false_2.
Qed.

(** Writing [True] at the positions of a mask into a series of [False]
    gives the mask back: the filters are the masks of
    [indexer_between_time]. *)
Lemma iloc_nonzero (mask : list bool) :
  iloc_assign (nonzero mask) true (replicate (length mask) false) = mask.
Proof.
  apply list_eq. intros i. rewrite iloc_assign_lookup.
  destruct (mask !! i) as [b|] eqn:Hi.
  - assert (i < length mask)%nat by (by eapply lookup_lt_Some).
    rewrite lookup_replicate_2 by done. simpl.
    case_bool_decide as Hin.
    + apply nonzero_from_elem in Hin as (j & -> & Hj). simpl in Hi. congruence.
    + destruct b; [|done]. exfalso. apply Hin.
      apply nonzero_from_elem. exists i. auto.
  - assert (length mask ≤ i)%nat by (by apply lookup_ge_None).
    assert (replicate (length mask) false !! i = None) as ->
      by (by apply lookup_replicate_None).
    by case_bool_decide.
Qed.

End Masks.

Section MaskedAssignment.

Lemma mask_assign_lookup (mask : list bool) (v : float) (col : list float)
    (i : nat) :
  mask_assign mask v col !! i =
    (λ x, if default false (mask !! i) then v else x) <$> col !! i.
Proof.
  revert mask i. induction col as [|x col IH]; intros mask i.
  - by destruct mask.
  - destruct mask as [|b mask]; simpl.
    + by destruct (_ !! i).
    + destruct i as [|i]; simpl; [done|]. apply IH.
Qed.

Lemma mask_assign_length (mask : list bool) (v : float) (col : list float) :
  length (mask_assign mask v col) = length col.
Proof.
  revert mask. induction col as [|x col IH]; intros [|b mask]; simpl;
    auto.
Qed.

Lemma mask_assign_Forall (P : float → Prop) (mask : list bool) (v : float)
    (col : list float) :
  P v → Forall P col → Forall P (mask_assign mask v col).
Proof.
  intros Hv Hcol. revert mask.
  induction Hcol as [|x col Hx Hcol IH]; intros [|b mask]; simpl;
    try by constructor.
  constructor; [by destruct b | apply IH].
Qed.

Lemma series_and_lookup (a b : list bool) (i : nat) (x y : bool) :
  a !! i = Some x → b !! i = Some y →
  series_and a b !! i = Some (x && y).
Proof.
  intros Ha Hb. unfold series_and. rewrite lookup_zip_with, Ha. simpl.
  by rewrite Hb.
Qed.

(** What the six assignments leave at one position. *)
Lemma raw_values_lookup (idx : DatetimeIndex) (labels : list Z)
    (kw : kwargs) (wd wn ed en hd hn : float) (i : nat) (t w : Z) :
  values idx !! i = Some t → labels !! i = Some w →
  raw_values idx (IntCol labels) kw wd wn ed en hd hn !! i =
    Some (match bucket_filters kw t w with
          | [b1; b2; b3; b4; b5; b6] =>
              if b6 then hn else if b5 then hd else if b4 then en else
              if b3 then ed else if b2 then wn else if b1 then wd else
              Float.zero
          | _ => Float.zero
          end).
Proof.
  intros Ht Hw. unfold raw_values, bucket_filters, day_filter_at,
    night_filter_at, isin.
  rewrite !mask_assign_lookup.
  assert (∀ (f : Z → bool) (g : Z → bool),
    series_and (f <$> values idx) (g <$> labels) !! i =
      Some (f t && g w)) as Hand.
  { intros f g. apply series_and_lookup; by rewrite list_lookup_fmap,
      ?Ht, ?Hw. }
  rewrite !Hand. unfold Series_const.
  rewrite lookup_replicate_2 by (by eapply lookup_lt_Some). simpl.
  repeat match goal with
  | |- context [if ?b then _ else _] => destruct b; simpl
  end; reflexivity.
Qed.

Lemma raw_values_length (idx : DatetimeIndex) (weekday : column)
    (kw : kwargs) (wd wn ed en hd hn : float) :
  length (raw_values idx weekday kw wd wn ed en hd hn) =
    length (values idx).
Proof.
  unfold raw_values. rewrite !mask_assign_length. unfold Series_const.
  apply length_replicate.
Qed.

Lemma raw_values_Forall (P : float → Prop) (idx : DatetimeIndex)
    (weekday : column) (kw : kwargs) (wd wn ed en hd hn : float) :
  P Float.zero → P wd → P wn → P ed → P en → P hd → P hn →
  Forall P (raw_values idx weekday kw wd wn ed en hd hn).
Proof.
  intros. unfold raw_values.
  repeat (apply mask_assign_Forall; [done|]).
  unfold Series_const. by apply Forall_replicate.
Qed.

End MaskedAssignment.

(** ** The three ways a call ends *)

Section Runs.

Lemma check_key_ok (pf : factors) (key : string) (d n : float)
    (self : IndustrialLoadProfile) :
  get_factor pf key "day" = Some d → get_factor pf key "night" = Some n →
  check_key pf key self = (mret tt : M unit) self.
Proof.
  unfold get_factor, check_key. intros Hd Hn.
  destruct (pf !! key) as [sub|]; [simpl in *|done].
  rewrite Hd, Hn. by rewrite !bool_decide_eq_false_2 by done.
Qed.

Lemma assign_factor_ok (mask : list bool) (pf : factors)
    (group window : string) (v : float) (self : IndustrialLoadProfile) :
  get_factor pf group window = Some v →
  assign_factor mask pf group window self =
    modify_dataframe (loc_assign mask "ind" v) self.
Proof.
  unfold get_factor, assign_factor, dict_get. intros Hv.
  destruct (pf !! group) as [sub|]; [simpl in *|done].
  unfold mbind, M_bind; simpl. by rewrite Hv.
Qed.

(** A step that returns [a], logs nothing and leaves [self'] hands over
    to the rest of the method. *)
Lemma bind_quiet {A B} (m : M A) (f : A → M B)
    (self self' : IndustrialLoadProfile) (a : A) :
  m self = {| final := self'; logged := []; result := inr a |} →
  (m ≫= f) self = f a self'.
Proof.
  intros H. unfold mbind, M_bind. rewrite H. simpl.
  by destruct (f a self').
Qed.

Lemma bind_raise {A B} (m : M A) (f : A → M B)
    (self self' : IndustrialLoadProfile) (l : list string) (e : exn) :
  m self = {| final := self'; logged := l; result := inl e |} →
  (m ≫= f) self = {| final := self'; logged := l; result := inl e |}.
Proof. intros H. unfold mbind, M_bind. by rewrite H. Qed.

Lemma getitem_Some (name : string) (c : column)
    (self : IndustrialLoadProfile) :
  columns (dataframe self) !! name = Some c →
  getitem name self = {| final := self; logged := []; result := inr c |}.
Proof.
  intros H. unfold getitem.
  erewrite bind_quiet by reflexivity. by rewrite H.
Qed.

Lemma getitem_None (name : string) (self : IndustrialLoadProfile) :
  columns (dataframe self) !! name = None →
  getitem name self =
    {| final := self; logged := []; result := inl (KeyError name) |}.
Proof.
  intros H. unfold getitem.
  erewrite bind_quiet by reflexivity. by rewrite H.
Qed.

Lemma bind_logged {A B} (m : M A) (f : A → M B)
    (self self' : IndustrialLoadProfile) (l : list string) (a : A) :
  m self = {| final := self'; logged := l; result := inr a |} →
  (m ≫= f) self =
    {| final := final (f a self'); logged := l ++ logged (f a self');
       result := result (f a self') |}.
Proof. intros H. unfold mbind, M_bind. by rewrite H. Qed.

Lemma freq_nanos_Some (n : Z) (self : IndustrialLoadProfile) :
  freq (index (dataframe self)) = Some (Tick n) →
  freq_nanos self = {| final := self; logged := []; result := inr n |}.
Proof.
  intros H. unfold freq_nanos.
  erewrite bind_quiet by reflexivity. by rewrite H.
Qed.

Lemma freq_nanos_NonFixed (repr : string) (self : IndustrialLoadProfile) :
  freq (index (dataframe self)) = Some (NonFixed repr) →
  freq_nanos self =
    {| final := self; logged := [];
       result := inl (ValueError (repr +:+ " is a non-fixed frequency")) |}.
Proof.
  intros H. unfold freq_nanos.
  erewrite bind_quiet by reflexivity. by rewrite H.
Qed.

Lemma freq_nanos_None (self : IndustrialLoadProfile) :
  freq (index (dataframe self)) = None →
  freq_nanos self =
    {| final := self; logged := [];
       result := inl (AttributeError
                        "'NoneType' object has no attribute 'nanos'") |}.
Proof.
  intros H. unfold freq_nanos.
  erewrite bind_quiet by reflexivity. by rewrite H.
Qed.

Lemma set_column_lookup_ne (name other : string) (c : column)
    (df : DataFrame) :
  name ≠ other → columns (set_column name c df) !! other = columns df !! other.
Proof. intros. unfold set_column. simpl. by rewrite lookup_insert_ne. Qed.

Lemma set_column_lookup (name : string) (c : column) (df : DataFrame) :
  columns (set_column name c df) !! name = Some c.
Proof. unfold set_column. simpl. by rewrite lookup_insert_eq. Qed.

Lemma set_column_twice (name : string) (c c' : column) (df : DataFrame) :
  set_column name c (set_column name c' df) = set_column name c df.
Proof. unfold set_column. simpl. by rewrite insert_insert_eq. Qed.

Lemma loc_assign_float (mask : list bool) (name : string) (v : float)
    (l : list float) (df : DataFrame) :
  loc_assign mask name v (set_column name (FloatCol l) df) =
    set_column name (FloatCol (mask_assign mask v l)) df.
Proof.
  unfold loc_assign. rewrite set_column_lookup. simpl.
  apply set_column_twice.
Qed.

(** The filter series the source builds from the positions is the mask
    of [indexer_between_time] itself. *)
Lemma filter_series (idx : DatetimeIndex) (a b : time) :
  iloc_assign (indexer_between_time idx a b) true (Series_const false idx) =
    between_time_at a b <$> values idx.
Proof.
  unfold indexer_between_time, Series_const.
  rewrite <- (length_fmap (between_time_at a b)). apply iloc_nonzero.
Qed.

(** The check passes when all six entries are there. *)
Lemma check_passes (pf : factors) (wd wn ed en hd hn : float)
    (self : IndustrialLoadProfile) :
  get_factor pf "week" "day" = Some wd →
  get_factor pf "week" "night" = Some wn →
  get_factor pf "weekend" "day" = Some ed →
  get_factor pf "weekend" "night" = Some en →
  get_factor pf "holiday" "day" = Some hd →
  get_factor pf "holiday" "night" = Some hn →
  for_each ["week"; "weekend"; "holiday"] (check_key pf) self =
    {| final := self; logged := []; result := inr tt |}.
Proof.
  intros. unfold for_each.
  do 3 (erewrite bind_quiet by (eapply check_key_ok; eassumption)).
  reflexivity.
Qed.

(** The call goes through: all six factors are there and the frame has
    its weekday column. *)
Lemma simple_profile_run (annual_demand : float) (kw : kwargs)
    (self : IndustrialLoadProfile) (weekday : column)
    (wd wn ed en hd hn : float) :
  weekday_column self = Some weekday →
  get_factor (arg_profile_factors kw) "week" "day" = Some wd →
  get_factor (arg_profile_factors kw) "week" "night" = Some wn →
  get_factor (arg_profile_factors kw) "weekend" "day" = Some ed →
  get_factor (arg_profile_factors kw) "weekend" "night" = Some en →
  get_factor (arg_profile_factors kw) "holiday" "day" = Some hd →
  get_factor (arg_profile_factors kw) "holiday" "night" = Some hn →
  let raw :=
    raw_values (index (dataframe self)) weekday kw wd wn ed en hd hn in
  simple_profile annual_demand kw self =
    {| final :=
         {| dataframe := set_column "ind" (FloatCol raw) (dataframe self) |};
       logged := if isnull_any raw then [nan_message] else [];
       result :=
         match freq (index (dataframe self)) with
         | Some (Tick n) =>
             inr (normalize raw (series_sum raw) annual_demand
                    (time_interval_hours n))
         | Some (NonFixed repr) =>
             inl (ValueError (repr +:+ " is a non-fixed frequency"))
         | None =>
             inl (AttributeError
                    "'NoneType' object has no attribute 'nanos'")
         end |}.
Proof.
  intros Hwd H1 H2 H3 H4 H5 H6 raw.
  unfold simple_profile.
  erewrite bind_quiet by (eapply check_passes; eassumption).
  do 2 (erewrite bind_quiet by reflexivity).
  cbn [dataframe]. unfold set_column_const.
  do 3 (erewrite bind_quiet
          by (apply getitem_Some; cbn [dataframe];
              rewrite set_column_lookup_ne by done; exact Hwd)).
  cbn [index set_column]. rewrite !filter_series.
  set (zeros := Series_const Float.zero (index (dataframe self))).
  change {| index := index (dataframe self);
            columns := <["ind":=FloatCol zeros]> (columns (dataframe self)) |}
    with (set_column "ind" (FloatCol zeros) (dataframe self)).
  do 6 (erewrite bind_quiet
          by (etrans; [eapply assign_factor_ok; eassumption | reflexivity]);
        cbn [dataframe]; rewrite loc_assign_float).
  change (mask_assign _ hn _) with raw.
  erewrite bind_quiet
    by (apply getitem_Some; cbn [dataframe]; apply set_column_lookup).
  cbn [as_floats].
  set (self' := {| dataframe := set_column "ind" (FloatCol raw) _ |}).
  assert (getitem "ind" self' =
          {| final := self'; logged := []; result := inr (FloatCol raw) |})
    as Hind by (apply getitem_Some; apply set_column_lookup).
  assert (∀ l, when (isnull_any raw) (logging_error nan_message) self' = l →
    (if isnull_any raw then [nan_message] else []) = logged l ∧
    final l = self' ∧ result l = inr tt) as Hwhen.
  { intros l <-. by destruct (isnull_any raw). }
  destruct (when _ _ self') as [s1 l1 r1] eqn:Hw.
  destruct (Hwhen _ eq_refl) as (-> & Hs & Hr). simpl in Hs, Hr. subst.
  erewrite bind_logged by exact Hw.
  destruct (freq (index (dataframe self))) as [[n|repr]|] eqn:Hfreq.
  - erewrite bind_quiet by (by apply freq_nanos_Some).
    do 2 (erewrite bind_quiet by exact Hind).
    simpl. by rewrite app_nil_r.
  - erewrite bind_raise by (by apply freq_nanos_NonFixed).
    simpl. by rewrite app_nil_r.
  - erewrite bind_raise by (by apply freq_nanos_None).
    simpl. by rewrite app_nil_r.
Qed.

Lemma check_key_cases (pf : factors) (key : string) :
  (∃ d n, get_factor pf key "day" = Some d ∧
          get_factor pf key "night" = Some n) ∨
  (∃ msg w, w ∈ windows ∧ get_factor pf key w = None ∧
     ∀ self, check_key pf key self =
       {| final := self; logged := []; result := inl (ValueError msg) |}).
Proof.
  unfold get_factor, check_key, windows.
  destruct (pf !! key) as [sub|]; simpl.
  2: { right. eexists _, "day". split_and!; try done.
       by repeat constructor. }
  destruct (sub !! "day") as [d|] eqn:Hd; simpl.
  - destruct (sub !! "night") as [n|] eqn:Hn; simpl; [left; eauto|].
    right. eexists _, "night". split_and!; try done.
       by repeat constructor.
  - right. eexists _, "day". split_and!; try done.
       by repeat constructor.
Qed.

(** Either all six entries are there, or the check raises and nothing
    has happened yet. *)
Lemma check_outcome (pf : factors) :
  (∃ wd wn ed en hd hn,
     get_factor pf "week" "day" = Some wd ∧
     get_factor pf "week" "night" = Some wn ∧
     get_factor pf "weekend" "day" = Some ed ∧
     get_factor pf "weekend" "night" = Some en ∧
     get_factor pf "holiday" "day" = Some hd ∧
     get_factor pf "holiday" "night" = Some hn) ∨
  (∃ msg g w, g ∈ groups ∧ w ∈ windows ∧ get_factor pf g w = None ∧
     ∀ self, for_each ["week"; "weekend"; "holiday"] (check_key pf) self =
       {| final := self; logged := []; result := inl (ValueError msg) |}).
Proof.
  unfold for_each, groups.
  destruct (check_key_cases pf "week")
    as [(wd & wn & H1 & H2) | (msg & w & Hw & Hmiss & Hrun)].
  2: { right. exists msg, "week", w.
       split_and!; [by repeat constructor | done.. |].
       intros self. by erewrite bind_raise. }
  destruct (check_key_cases pf "weekend")
    as [(ed & en & H3 & H4) | (msg & w & Hw & Hmiss & Hrun)].
  2: { right. exists msg, "weekend", w.
       split_and!; [by repeat constructor | done.. |].
       intros self.
       erewrite bind_quiet by (eapply check_key_ok; eassumption).
       by erewrite bind_raise. }
  destruct (check_key_cases pf "holiday")
    as [(hd & hn & H5 & H6) | (msg & w & Hw & Hmiss & Hrun)].
  2: { right. exists msg, "holiday", w.
       split_and!; [by repeat constructor | done.. |].
       intros self.
       do 2 (erewrite bind_quiet by (eapply check_key_ok; eassumption)).
       by erewrite bind_raise. }
  left. by exists wd, wn, ed, en, hd, hn.
Qed.

(** The check fails: the call raises before anything is written. *)
Lemma simple_profile_invalid (annual_demand : float) (kw : kwargs)
    (self : IndustrialLoadProfile) (msg : string) :
  for_each ["week"; "weekend"; "holiday"]
    (check_key (arg_profile_factors kw)) self =
    {| final := self; logged := []; result := inl (ValueError msg) |} →
  simple_profile annual_demand kw self =
    {| final := self; logged := []; result := inl (ValueError msg) |}.
Proof. intros H. unfold simple_profile. by erewrite bind_raise. Qed.

(** The frame has no weekday column: the call raises after it has
    reset the working column. *)
Lemma simple_profile_no_weekday (annual_demand : float) (kw : kwargs)
    (self : IndustrialLoadProfile) :
  for_each ["week"; "weekend"; "holiday"]
    (check_key (arg_profile_factors kw)) self =
    {| final := self; logged := []; result := inr tt |} →
  weekday_column self = None →
  simple_profile annual_demand kw self =
    {| final :=
         {| dataframe :=
              set_column_const "ind" Float.zero (dataframe self) |};
       logged := [];
       result := inl (KeyError "weekday") |}.
Proof.
  intros Hcheck Hwd. unfold simple_profile.
  erewrite bind_quiet by exact Hcheck.
  do 2 (erewrite bind_quiet by reflexivity).
  erewrite bind_raise; [reflexivity|].
  apply getitem_None. cbn [dataframe]. unfold set_column_const.
  by rewrite set_column_lookup_ne.
Qed.

End Runs.

(** ** What a call reads and what it writes *)

Section Frame.

(** A call leaves the index alone and writes no column but ["ind"]. *)
Lemma simple_profile_frame (annual_demand : float) (kw : kwargs)
    (self : IndustrialLoadProfile) :
  let self' := final (simple_profile annual_demand kw self) in
  index (dataframe self') = index (dataframe self) ∧
  ∀ name, name ≠ "ind" →
    columns (dataframe self') !! name = columns (dataframe self) !! name.
Proof.
  destruct (check_outcome (arg_profile_factors kw))
    as [(wd & wn & ed & en & hd & hn & H1 & H2 & H3 & H4 & H5 & H6)
       | (msg & g & w & _ & _ & _ & Hrun)].
  - destruct (weekday_column self) as [weekday|] eqn:Hwd.
    + rewrite (simple_profile_run _ _ _ _ _ _ _ _ _ _ Hwd H1 H2 H3 H4 H5 H6).
      simpl. split; [done|]. intros name Hne. by rewrite lookup_insert_ne.
    + rewrite simple_profile_no_weekday;
        [|by eapply check_passes|done].
      simpl. split; [done|]. intros name Hne. by rewrite lookup_insert_ne.
  - rewrite (simple_profile_invalid _ _ _ msg) by apply Hrun. by simpl.
Qed.

Lemma run_calls_frame (calls : list (float * kwargs))
    (self : IndustrialLoadProfile) :
  index (dataframe (run_calls calls self)) = index (dataframe self) ∧
  ∀ name, name ≠ "ind" →
    columns (dataframe (run_calls calls self)) !! name =
      columns (dataframe self) !! name.
Proof.
  revert self. induction calls as [|[annual_demand kw] rest IH];
    intros self; simpl; [done|].
  destruct (IH (final (simple_profile annual_demand kw self)))
    as [Hidx Hcols].
  destruct (simple_profile_frame annual_demand kw self) as [Hidx' Hcols'].
  split; [congruence|]. intros name Hne.
  rewrite Hcols by done. by apply Hcols'.
Qed.

(** What a call returns and logs is a function of the index and of the
    weekday column alone. *)
Lemma simple_profile_reads (annual_demand : float) (kw : kwargs)
    (self1 self2 : IndustrialLoadProfile) :
  index (dataframe self1) = index (dataframe self2) →
  weekday_column self1 = weekday_column self2 →
  result (simple_profile annual_demand kw self1) =
    result (simple_profile annual_demand kw self2) ∧
  logged (simple_profile annual_demand kw self1) =
    logged (simple_profile annual_demand kw self2).
Proof.
  intros Hidx Hwd.
  destruct (check_outcome (arg_profile_factors kw))
    as [(wd & wn & ed & en & hd & hn & H1 & H2 & H3 & H4 & H5 & H6)
       | (msg & g & w & _ & _ & _ & Hrun)].
  - destruct (weekday_column self2) as [weekday|] eqn:Hwd2.
    + rewrite !(simple_profile_run _ _ _ weekday wd wn ed en hd hn)
        by done.
      simpl. by rewrite Hidx.
    + rewrite !simple_profile_no_weekday;
        [done | by eapply check_passes | done..
        | by eapply check_passes | done].
  - by rewrite !(simple_profile_invalid _ _ _ msg) by apply Hrun.
Qed.

End Frame.

(** ** The properties of the specification *)

(** C8: the weekday column, the index and every column other than the
    working column ["ind"] are the same after any run of [simple_profile]
    calls on an instance as before it, so the classification built at
    construction is never modified; only ["ind"] is written. *)
Theorem weekday_column_preserved (self : IndustrialLoadProfile)
    (calls : list (float * kwargs)) :
  let self' := run_calls calls self in
  weekday_column self' = weekday_column self ∧
  index (dataframe self') = index (dataframe self) ∧
  ∀ name, name ≠ "ind" →
    columns (dataframe self') !! name = columns (dataframe self) !! name.
Proof.
  destruct (run_calls_frame calls self) as [Hidx Hcols].
  split; [|by split]. unfold weekday_column. by apply Hcols.
Qed.

(** C9: a call is history-independent.  Whatever calls were made before on
    the instance, with whatever arguments, the next call returns and logs
    what the same call returns and logs on the instance before them; in
    particular a call repeated with the same arguments returns the same
    series. *)
Theorem simple_profile_history_independent (self : IndustrialLoadProfile)
    (calls : list (float * kwargs)) (annual_demand : float) (kw : kwargs) :
  let first := simple_profile annual_demand kw self in
  let later := simple_profile annual_demand kw (run_calls calls self) in
  let again := simple_profile annual_demand kw (final first) in
  result later = result first ∧ logged later = logged first ∧
  result again = result first ∧ logged again = logged first.
Proof.
  destruct (weekday_column_preserved self calls) as (Hwd & Hidx & _).
  destruct (weekday_column_preserved self [(annual_demand, kw)])
    as (Hwd' & Hidx' & _).
  simpl in Hwd', Hidx'.
  destruct (simple_profile_reads annual_demand kw _ _ Hidx Hwd)
    as [Hres Hlog].
  destruct (simple_profile_reads annual_demand kw _ _ Hidx' Hwd')
    as [Hres' Hlog'].
  split_and!; assumption.
Qed.

Section Factors.

Lemma complete_factors (pf : factors) :
  factors_complete pf →
  ∃ wd wn ed en hd hn,
    get_factor pf "week" "day" = Some wd ∧
    get_factor pf "week" "night" = Some wn ∧
    get_factor pf "weekend" "day" = Some ed ∧
    get_factor pf "weekend" "night" = Some en ∧
    get_factor pf "holiday" "day" = Some hd ∧
    get_factor pf "holiday" "night" = Some hn.
Proof.
  intros Hc.
  assert (∀ g w, g ∈ groups → w ∈ windows →
                 ∃ x, get_factor pf g w = Some x) as Hget.
  { intros g w Hg Hw. by destruct (Hc g w Hg Hw) as [x Hx]; exists x. }
  destruct (Hget "week" "day") as [wd ?]; [by repeat constructor..|].
  destruct (Hget "week" "night") as [wn ?]; [by repeat constructor..|].
  destruct (Hget "weekend" "day") as [ed ?]; [by repeat constructor..|].
  destruct (Hget "weekend" "night") as [en ?]; [by repeat constructor..|].
  destruct (Hget "holiday" "day") as [hd ?]; [by repeat constructor..|].
  destruct (Hget "holiday" "night") as [hn ?]; [by repeat constructor..|].
  by exists wd, wn, ed, en, hd, hn.
Qed.

Lemma missing_get_factor (pf : factors) :
  missing_entry pf →
  ∃ g w, g ∈ groups ∧ w ∈ windows ∧ get_factor pf g w = None.
Proof.
  intros (g & Hg & [Hnone | (sub & w & Hsub & Hw & Hnone)]).
  - exists g, "day". unfold get_factor. rewrite Hnone.
    split_and!; [done | by repeat constructor | done].
  - exists g, w. unfold get_factor. rewrite Hsub. by split_and!.
Qed.

(** The column ["ind"] after a call that went through. *)
Lemma ind_column_run (annual_demand : float) (kw : kwargs)
    (self : IndustrialLoadProfile) (weekday : column)
    (wd wn ed en hd hn : float) :
  weekday_column self = Some weekday →
  get_factor (arg_profile_factors kw) "week" "day" = Some wd →
  get_factor (arg_profile_factors kw) "week" "night" = Some wn →
  get_factor (arg_profile_factors kw) "weekend" "day" = Some ed →
  get_factor (arg_profile_factors kw) "weekend" "night" = Some en →
  get_factor (arg_profile_factors kw) "holiday" "day" = Some hd →
  get_factor (arg_profile_factors kw) "holiday" "night" = Some hn →
  ind_column (final (simple_profile annual_demand kw self)) =
    raw_values (index (dataframe self)) weekday kw wd wn ed en hd hn.
Proof.
  intros Hwd H1 H2 H3 H4 H5 H6.
  rewrite (simple_profile_run _ _ _ _ _ _ _ _ _ _ Hwd H1 H2 H3 H4 H5 H6).
  unfold ind_column. cbn [final dataframe].
  by rewrite set_column_lookup.
Qed.

End Factors.

(** C3: when [profile_factors] lacks the key of a group, or a group that is
    there lacks its ["day"] or ["night"] key, the call raises [ValueError]
    (the configuration error of the specification); it does so before
    anything is computed: the instance is left as it was and nothing is
    logged. *)
Theorem missing_factor_raises (annual_demand : float) (kw : kwargs)
    (self : IndustrialLoadProfile) :
  missing_entry (arg_profile_factors kw) →
  ∃ msg,
    simple_profile annual_demand kw self =
      {| final := self; logged := []; result := inl (ValueError msg) |}.
Proof.
  intros (g & w & Hg & Hw & Hnone)%missing_get_factor.
  destruct (check_outcome (arg_profile_factors kw))
    as [(wd & wn & ed & en & hd & hn & H1 & H2 & H3 & H4 & H5 & H6)
       | (msg & _ & _ & _ & _ & _ & Hrun)].
  - exfalso. unfold groups, windows in *.
    repeat match goal with
    | H : _ ∈ _ :: _ |- _ => apply elem_of_cons in H as [-> | H]
    | H : _ ∈ [] |- _ => by apply elem_of_nil in H
    end; congruence.
  - exists msg. apply simple_profile_invalid, Hrun.
Qed.

(** C10: the six assignments are applied in source order and the last one
    that selects a row wins.  The raw value of a timestamp is the factor of
    the last group, in the order week, weekend, holiday, whose set holds
    its label, and within that group the night factor when the night
    window holds the timestamp, whether or not the day window holds it
    too. *)
Theorem last_writer_wins (annual_demand : float) (kw : kwargs)
    (self : IndustrialLoadProfile) (labels : list Z) (i : nat) (t w : Z) :
  has_weekdays self labels →
  factors_complete (arg_profile_factors kw) →
  values (index (dataframe self)) !! i = Some t →
  labels !! i = Some w →
  ind_column (final (simple_profile annual_demand kw self)) !! i =
    Some (last_writer_value kw t w).
Proof.
  intros [Hwd _] Hc Ht Hw.
  destruct (complete_factors _ Hc)
    as (wd & wn & ed & en & hd & hn & H1 & H2 & H3 & H4 & H5 & H6).
  rewrite (ind_column_run _ _ _ _ _ _ _ _ _ _ Hwd H1 H2 H3 H4 H5 H6).
  rewrite (raw_values_lookup _ _ _ _ _ _ _ _ _ _ _ _ Ht Hw).
  unfold bucket_filters, last_writer_value, last_group, last_window.
  destruct (bool_decide (w ∈ arg_holiday kw)),
    (bool_decide (w ∈ arg_weekend kw)), (bool_decide (w ∈ arg_week kw)),
    (night_filter_at kw t), (day_filter_at kw t);
    cbn [andb]; rewrite ?H1, ?H2, ?H3, ?H4, ?H5, ?H6; reflexivity.
Qed.

(** ** The returned series *)




(** C7, as the code has it: the diagnostic is logged exactly when the raw
    profile holds a NaN after the assignments, which takes a NaN factor.
    A timestamp whose label is in none of the three sets keeps the raw
    value 0.0; no diagnostic is logged for it and nothing is raised because
    of it. *)
Theorem diagnostic_reports_nan_only (annual_demand : float) (kw : kwargs)
    (self : IndustrialLoadProfile) (labels : list Z) :
  has_weekdays self labels →
  factors_complete (arg_profile_factors kw) →
  let o := simple_profile annual_demand kw self in
  let raw := ind_column (final o) in
  logged o = (if isnull_any raw then [nan_message] else []) ∧
  (factors_all (λ x, Float.isnan x = false) (arg_profile_factors kw) →
   logged o = []) ∧
  (∀ i t w,
     values (index (dataframe self)) !! i = Some t →
     labels !! i = Some w →
     w ∉ arg_week kw → w ∉ arg_weekend kw → w ∉ arg_holiday kw →
     raw !! i = Some Float.zero) ∧
  (∀ e, result o = inl e →
        ∀ n, freq (index (dataframe self)) ≠ Some (Tick n)).
Proof.
  intros [Hwd _] Hc o raw.
  destruct (complete_factors _ Hc)
    as (wd & wn & ed & en & hd & hn & H1 & H2 & H3 & H4 & H5 & H6).
  subst raw o.
  rewrite (ind_column_run _ _ _ _ _ _ _ _ _ _ Hwd H1 H2 H3 H4 H5 H6).
  rewrite (simple_profile_run _ _ _ _ _ _ _ _ _ _ Hwd H1 H2 H3 H4 H5 H6).
  cbn [result logged].
  set (raw := raw_values _ _ _ _ _ _ _ _ _).
  split_and!.
  - done.
  - intros Hnan.
    assert (Forall (λ x, Float.isnan x = false) raw) as Hraw.
    { apply raw_values_Forall; [done|eapply Hnan; [| |eassumption];
        by repeat constructor..]. }
    assert (isnull_any raw = false) as ->; [|done].
    unfold isnull_any. induction Hraw as [|x l Hx _ IH]; [done|].
    simpl. by rewrite Hx.
  - intros i t w Ht Hw Hweek Hweekend Hholiday. subst raw.
    rewrite (raw_values_lookup _ _ _ _ _ _ _ _ _ _ _ _ Ht Hw).
    unfold bucket_filters.
    rewrite !bool_decide_eq_false_2 by done.
    by rewrite !andb_false_r.
  - intros e He n Hn. by rewrite Hn in He.
Qed.

(** ** The two windows at their bounds *)

Section Windows.

Lemma time_leb_micros (a b : time) :
  time_valid a → time_valid b →
  time_leb a b = (time_to_micros a <=? time_to_micros b).
Proof.
  unfold time_valid, time_leb, time_to_micros.
  destruct a as [h m s u], b as [h' m' s' u']. simpl.
  intros (? & ? & ? & ?) (? & ? & ? & ?).
  destruct (Z.leb_spec
              (1000000 * (h * 60 * 60 + 60 * m + s) + u)
              (1000000 * (h' * 60 * 60 + 60 * m' + s') + u'));
    repeat match goal with
    | |- context [?x <? ?y] => destruct (Z.ltb_spec x y)
    | |- context [?x <=? ?y] => destruct (Z.leb_spec x y)
    end; try reflexivity; exfalso; lia.
Qed.

(** A timestamp whose time of day is exactly one of the two bounds is
    in the window from [a] to [b] and in the window from [b] to [a]. *)
Lemma bound_in_both_windows (a b : time) (t : Z) :
  time_valid a → time_valid b →
  get_time_micros t = time_to_micros a ∨
    get_time_micros t = time_to_micros b →
  between_time_at a b t = true ∧ between_time_at b a t = true.
Proof.
  intros Ha Hb Ht. unfold between_time_at.
  rewrite !time_leb_micros by done.
  destruct Ht as [-> | ->];
    repeat match goal with
    | |- context [?x <=? ?y] => destruct (Z.leb_spec x y)
    end; simpl; split; try reflexivity; lia.
Qed.

(** When the two bounds differ, the two windows together hold every
    timestamp, and they hold one in common only at the bounds. *)
Lemma windows_cover (a b : time) (t : Z) :
  time_valid a → time_valid b →
  time_to_micros a ≠ time_to_micros b →
  between_time_at a b t || between_time_at b a t = true.
Proof.
  intros Ha Hb Hne. unfold between_time_at.
  rewrite !time_leb_micros by done.
  repeat match goal with
  | |- context [?x <=? ?y] => destruct (Z.leb_spec x y)
  end; simpl; try reflexivity; lia.
Qed.

Lemma windows_meet_at_bounds (a b : time) (t : Z) :
  time_valid a → time_valid b →
  time_to_micros a ≠ time_to_micros b →
  between_time_at a b t = true → between_time_at b a t = true →
  get_time_micros t = time_to_micros a ∨
    get_time_micros t = time_to_micros b.
Proof.
  intros Ha Hb Hne. unfold between_time_at.
  rewrite !time_leb_micros by done.
  repeat match goal with
  | |- context [?x <=? ?y] => destruct (Z.leb_spec x y)
  end; simpl; try discriminate; lia.
Qed.

End Windows.

Section Bounds.

(** The raw value the call leaves at one position, by the six filters. *)
Lemma ind_column_lookup (annual_demand : float) (kw : kwargs)
    (self : IndustrialLoadProfile) (labels : list Z)
    (wd wn ed en hd hn : float) (i : nat) (t w : Z) :
  has_weekdays self labels →
  get_factor (arg_profile_factors kw) "week" "day" = Some wd →
  get_factor (arg_profile_factors kw) "week" "night" = Some wn →
  get_factor (arg_profile_factors kw) "weekend" "day" = Some ed →
  get_factor (arg_profile_factors kw) "weekend" "night" = Some en →
  get_factor (arg_profile_factors kw) "holiday" "day" = Some hd →
  get_factor (arg_profile_factors kw) "holiday" "night" = Some hn →
  values (index (dataframe self)) !! i = Some t →
  labels !! i = Some w →
  ind_column (final (simple_profile annual_demand kw self)) !! i =
    Some (match bucket_filters kw t w with
          | [b1; b2; b3; b4; b5; b6] =>
              if b6 then hn else if b5 then hd else if b4 then en else
              if b3 then ed else if b2 then wn else if b1 then wd else
              Float.zero
          | _ => Float.zero
          end).
Proof.
  intros [Hwd _] H1 H2 H3 H4 H5 H6 Ht Hw.
  rewrite (ind_column_run _ _ _ _ _ _ _ _ _ _ Hwd H1 H2 H3 H4 H5 H6).
  by apply raw_values_lookup.
Qed.

(** At a timestamp whose time of day is exactly [am] or exactly [pm] the
    day filter and the night filter both hold, and the night assignment,
    which comes second, decides: the raw value is the night factor of the
    last group that holds the label. *)
Lemma bound_gets_night_factor (annual_demand : float) (kw : kwargs)
    (self : IndustrialLoadProfile) (labels : list Z) (i : nat) (t w : Z)
    (g : string) :
  has_weekdays self labels →
  factors_complete (arg_profile_factors kw) →
  time_valid (arg_am kw) → time_valid (arg_pm kw) →
  values (index (dataframe self)) !! i = Some t →
  labels !! i = Some w →
  get_time_micros t = time_to_micros (arg_am kw) ∨
    get_time_micros t = time_to_micros (arg_pm kw) →
  last_group kw w = Some g →
  day_filter_at kw t = true ∧ night_filter_at kw t = true ∧
  ind_column (final (simple_profile annual_demand kw self)) !! i =
    get_factor (arg_profile_factors kw) g "night".
Proof.
  intros Hwf Hc Ham Hpm Ht Hw Hbound Hg.
  destruct (bound_in_both_windows _ _ t Ham Hpm Hbound) as [Hday Hnight].
  destruct (complete_factors _ Hc)
    as (wd & wn & ed & en & hd & hn & H1 & H2 & H3 & H4 & H5 & H6).
  split; [done|]. split; [done|].
  rewrite (ind_column_lookup _ _ _ _ _ _ _ _ _ _ _ _ _ Hwf
             H1 H2 H3 H4 H5 H6 Ht Hw).
  unfold bucket_filters, day_filter_at, night_filter_at, last_group in *.
  rewrite Hday, Hnight. cbn [andb].
  destruct (bool_decide (w ∈ arg_holiday kw)),
    (bool_decide (w ∈ arg_weekend kw)), (bool_decide (w ∈ arg_week kw));
    try discriminate; injection Hg as <-; congruence.
Qed.

(** The default group sets split the labels 0 to 7: each label is in
    exactly one of them. *)
Lemma default_groups_partition (w : Z) :
  0 <= w <= 7 →
  count_true [ bool_decide (w ∈ arg_week no_kwargs);
               bool_decide (w ∈ arg_weekend no_kwargs);
               bool_decide (w ∈ arg_holiday no_kwargs) ] = 1%nat.
Proof.
  intros Hw.
  assert (w = 0 ∨ w = 1 ∨ w = 2 ∨ w = 3 ∨ w = 4 ∨ w = 5 ∨ w = 6 ∨ w = 7)
    as Hcases by lia.
  repeat (destruct Hcases as [-> | Hcases]; [by vm_compute|]).
  subst. by vm_compute.
Qed.

(** With the default sets and labels 0 to 7, a timestamp is selected by
    one of the six filters when it is in one window only and by two of
    them when it is in both, which is the case at [am] and [pm]. *)
Lemma default_buckets_count (kw : kwargs) (t w : Z) :
  kw_week kw = None → kw_weekend kw = None → kw_holiday kw = None →
  0 <= w <= 7 →
  count_true (bucket_filters kw t w) =
    count_true [day_filter_at kw t; night_filter_at kw t].
Proof.
  intros Hweek Hweekend Hholiday Hw.
  unfold bucket_filters, arg_week, arg_weekend, arg_holiday.
  rewrite Hweek, Hweekend, Hholiday. cbn [default].
  assert (w = 0 ∨ w = 1 ∨ w = 2 ∨ w = 3 ∨ w = 4 ∨ w = 5 ∨ w = 6 ∨ w = 7)
    as Hcases by lia.
  destruct (day_filter_at kw t), (night_filter_at kw t);
    repeat (destruct Hcases as [-> | Hcases]; [by vm_compute|]);
    subst; by vm_compute.
Qed.

End Bounds.

(** ** The bounds of the day window on a concrete day *)

Ltac six_entries :=
  repeat match goal with
  | H : _ ∈ _ :: _ |- _ => apply elem_of_cons in H as [-> | H]
  | H : _ ∈ [] |- _ => by apply elem_of_nil in H
  end.

(** C4: the code against the half-open window [[am, pm)].  On Monday
    1970-01-05 with all defaults, the timestamp 07:00, whose time of day is
    exactly [am] and which the half-open window counts as day, is matched
    by the night filter as well as by the day filter and is left with the
    night factor 0.6 of the week group, not with its day factor 0.8; the
    next timestamp, 07:15, gets 0.8.  The timestamp 23:30, exactly [pm], is
    matched by the day filter too. *)
Theorem am_timestamp_gets_night_factor :
  let o := simple_profile (Float.of_Z 960) no_kwargs monday in
  values (index (dataframe monday)) !! 28%nat = Some at_0700 ∧
  get_time_micros at_0700 = time_to_micros (arg_am no_kwargs) ∧
  half_open_day (arg_am no_kwargs) (arg_pm no_kwargs) at_0700 = true ∧
  day_filter_at no_kwargs at_0700 = true ∧
  night_filter_at no_kwargs at_0700 = true ∧
  ind_column (final o) !! 28%nat = Some (lit 6 10) ∧
  ind_column (final o) !! 29%nat = Some (lit 8 10) ∧
  get_factor (arg_profile_factors no_kwargs) "week" "day" = Some (lit 8 10) ∧
  get_factor (arg_profile_factors no_kwargs) "week" "night"
    = Some (lit 6 10) ∧
  Float.eqb (lit 6 10) (lit 8 10) = false ∧
  values (index (dataframe monday)) !! 94%nat = Some at_2330 ∧
  get_time_micros at_2330 = time_to_micros (arg_pm no_kwargs) ∧
  day_filter_at no_kwargs at_2330 = true.
Proof. vm_compute. split_and!; reflexivity. Qed.

(** C5: the code against the partition into six buckets.  On the same day
    with all defaults, two of the six boolean series that select the rows
    of the six assignments hold at 07:00 and two hold at 23:30 (the day and
    the night series of the week group); at 07:15 one holds. *)
Theorem bounds_fall_into_two_buckets :
  weekday_column monday = Some (IntCol (replicate 96 1)) ∧
  buckets_at monday no_kwargs 28 = 2%nat ∧
  buckets_at monday no_kwargs 94 = 2%nat ∧
  buckets_at monday no_kwargs 29 = 1%nat ∧
  (λ m, default false (m !! 28%nat)) <$> bucket_masks monday no_kwargs =
    [true; true; false; false; false; false].
Proof. vm_compute. split_and!; reflexivity. Qed.

(** ** Concrete runs *)

Lemma monday_has_weekdays : has_weekdays monday (replicate 96 1).
Proof. split; vm_compute; reflexivity. Defined.

Lemma default_factors_complete :
  factors_complete (arg_profile_factors no_kwargs).
Proof.
  intros g w Hg Hw. unfold groups, windows in *. six_entries;
    vm_compute; eexists; reflexivity.
Defined.



(** C7, the claim refuted: with [week = [2, 3, 4, 5]] the label 1 of every
    timestamp of the Monday index is in none of the three sets, and yet the
    call logs nothing; the raw values stay 0.0. *)
Lemma unclassified_monday_not_logged :
  let o := simple_profile (Float.of_Z 960) week_without_monday monday in
  weekday_column monday = Some (IntCol (replicate 96 1)) ∧
  bool_decide (1 ∈ arg_week week_without_monday) = false ∧
  bool_decide (1 ∈ arg_weekend week_without_monday) = false ∧
  bool_decide (1 ∈ arg_holiday week_without_monday) = false ∧
  logged o = [] ∧
  ind_column (final o) = replicate 96 Float.zero.
Proof. vm_compute. split_and!; reflexivity. Qed.





(** C3 on the default factors without the night entry of the weekend
    group. *)
Lemma missing_night_raises :
  ∃ msg,
    simple_profile (Float.of_Z 960) (with_factors factors_without_night)
      monday =
      {| final := monday; logged := []; result := inl (ValueError msg) |}.
Proof.
  apply (missing_factor_raises (Float.of_Z 960)
           (with_factors factors_without_night) monday).
  exists "weekend". split; [by repeat constructor|]. right.
  exists (<["day" := lit 9 10]> ∅), "night". split_and!.
  - vm_compute. reflexivity.
  - by repeat constructor.
  - reflexivity.
Defined.

(** C7 as amended, on the Monday index with all defaults. *)
Lemma diagnostic_on_monday :
  let o := simple_profile (Float.of_Z 960) no_kwargs monday in
  let raw := ind_column (final o) in
  logged o = (if isnull_any raw then [nan_message] else []) ∧
  (factors_all (λ x, Float.isnan x = false) (arg_profile_factors no_kwargs) →
   logged o = []) ∧
  (∀ i t w,
     values (index (dataframe monday)) !! i = Some t →
     replicate 96 1 !! i = Some w →
     w ∉ arg_week no_kwargs → w ∉ arg_weekend no_kwargs →
     w ∉ arg_holiday no_kwargs →
     raw !! i = Some Float.zero) ∧
  (∀ e, result o = inl e →
        ∀ n, freq (index (dataframe monday)) ≠ Some (Tick n)).
Proof.
  apply (diagnostic_reports_nan_only (Float.of_Z 960) no_kwargs monday
           (replicate 96 1)).
  - exact monday_has_weekdays.
  - exact default_factors_complete.
Defined.

(** C10 on the Monday index at 07:00, which both windows hold. *)
Lemma last_writer_at_0700 :
  ind_column (final (simple_profile (Float.of_Z 960) no_kwargs monday))
    !! 28%nat = Some (last_writer_value no_kwargs at_0700 1).
Proof.
  apply (last_writer_wins (Float.of_Z 960) no_kwargs monday
           (replicate 96 1) 28 at_0700 1).
  - exact monday_has_weekdays.
  - exact default_factors_complete.
  - vm_compute. reflexivity.
  - reflexivity.
Defined.


(** ** Further properties of a call *)

Section Outcomes.

(** The three ways a call ends, in one statement. *)
Lemma simple_profile_cases (annual_demand : float) (kw : kwargs)
    (self : IndustrialLoadProfile) :
  (∃ msg, simple_profile annual_demand kw self =
            {| final := self; logged := [];
               result := inl (ValueError msg) |}) ∨
  (weekday_column self = None ∧
   simple_profile annual_demand kw self =
     {| final :=
          {| dataframe :=
               set_column_const "ind" Float.zero (dataframe self) |};
        logged := []; result := inl (KeyError "weekday") |}) ∨
  (∃ weekday wd wn ed en hd hn,
     weekday_column self = Some weekday ∧
     get_factor (arg_profile_factors kw) "week" "day" = Some wd ∧
     get_factor (arg_profile_factors kw) "week" "night" = Some wn ∧
     get_factor (arg_profile_factors kw) "weekend" "day" = Some ed ∧
     get_factor (arg_profile_factors kw) "weekend" "night" = Some en ∧
     get_factor (arg_profile_factors kw) "holiday" "day" = Some hd ∧
     get_factor (arg_profile_factors kw) "holiday" "night" = Some hn).
Proof.
  destruct (check_outcome (arg_profile_factors kw))
    as [(wd & wn & ed & en & hd & hn & H1 & H2 & H3 & H4 & H5 & H6)
       | (msg & g & w & _ & _ & _ & Hrun)].
  - destruct (weekday_column self) as [weekday|] eqn:Hwd.
    + right. right. by exists weekday, wd, wn, ed, en, hd, hn.
    + right. left. split; [done|].
      apply simple_profile_no_weekday; [by eapply check_passes | done].
  - left. exists msg. apply simple_profile_invalid, Hrun.
Qed.

End Outcomes.

(** X1: a series that is returned has one value per timestamp of the
    index. *)
Theorem returned_series_length (annual_demand : float) (kw : kwargs)
    (self : IndustrialLoadProfile) (out : list float) :
  result (simple_profile annual_demand kw self) = inr out →
  length out = length (values (index (dataframe self))).
Proof.
  destruct (simple_profile_cases annual_demand kw self)
    as [(msg & ->) | [(_ & ->)
       | (weekday & wd & wn & ed & en & hd & hn
          & Hwd & H1 & H2 & H3 & H4 & H5 & H6)]]; [done..|].
  rewrite (simple_profile_run _ _ _ _ _ _ _ _ _ _ Hwd H1 H2 H3 H4 H5 H6).
  cbn [result].
  destruct (freq (index (dataframe self))) as [[n|repr]|]; [|done..].
  intros [= <-]. unfold normalize.
  rewrite length_fmap. apply raw_values_length.
Qed.

(** X2: on an empty index that has a frequency the call returns the empty
    series and logs nothing; nothing is divided, so the zero total does no
    harm. *)
Theorem empty_index_returns_empty (annual_demand : float) (kw : kwargs)
    (self : IndustrialLoadProfile) (weekday : column) (n : Z) :
  values (index (dataframe self)) = [] →
  weekday_column self = Some weekday →
  freq (index (dataframe self)) = Some (Tick n) →
  factors_complete (arg_profile_factors kw) →
  result (simple_profile annual_demand kw self) = inr [] ∧
  logged (simple_profile annual_demand kw self) = [].
Proof.
  intros Hempty Hwd Hfreq Hc.
  destruct (complete_factors _ Hc)
    as (wd & wn & ed & en & hd & hn & H1 & H2 & H3 & H4 & H5 & H6).
  rewrite (simple_profile_run _ _ _ _ _ _ _ _ _ _ Hwd H1 H2 H3 H4 H5 H6).
  cbn [result logged]. rewrite Hfreq.
  assert (raw_values (index (dataframe self)) weekday kw wd wn ed en hd hn
          = []) as ->.
  { apply nil_length_inv. by rewrite raw_values_length, Hempty. }
  done.
Qed.

(** X3: on an index without a frequency the call raises [AttributeError]
    at the computation of the sampling interval, after the working column
    has been written: the frame is left with a column ["ind"] as long as
    the index. *)
Theorem missing_freq_raises_after_write (annual_demand : float)
    (kw : kwargs) (self : IndustrialLoadProfile) (weekday : column) :
  weekday_column self = Some weekday →
  freq (index (dataframe self)) = None →
  factors_complete (arg_profile_factors kw) →
  let o := simple_profile annual_demand kw self in
  result o =
    inl (AttributeError "'NoneType' object has no attribute 'nanos'") ∧
  ∃ raw, columns (dataframe (final o)) !! "ind" = Some (FloatCol raw) ∧
         length raw = length (values (index (dataframe self))).
Proof.
  intros Hwd Hfreq Hc o. subst o.
  destruct (complete_factors _ Hc)
    as (wd & wn & ed & en & hd & hn & H1 & H2 & H3 & H4 & H5 & H6).
  rewrite (simple_profile_run _ _ _ _ _ _ _ _ _ _ Hwd H1 H2 H3 H4 H5 H6).
  cbn [result final dataframe]. rewrite Hfreq. split; [done|].
  eexists. split; [apply set_column_lookup | apply raw_values_length].
Qed.

(** X15: on an index whose frequency is not fixed the call raises
    [ValueError] at the computation of the sampling interval, after the
    working column has been written, as it raises [AttributeError] on an
    index without a frequency. *)
Theorem non_fixed_freq_raises_after_write (annual_demand : float)
    (kw : kwargs) (self : IndustrialLoadProfile) (weekday : column)
    (repr : string) :
  weekday_column self = Some weekday →
  freq (index (dataframe self)) = Some (NonFixed repr) →
  factors_complete (arg_profile_factors kw) →
  let o := simple_profile annual_demand kw self in
  (∃ msg, result o = inl (ValueError msg)) ∧
  ∃ raw, columns (dataframe (final o)) !! "ind" = Some (FloatCol raw) ∧
         length raw = length (values (index (dataframe self))).
Proof.
  intros Hwd Hfreq Hc o. subst o.
  destruct (complete_factors _ Hc)
    as (wd & wn & ed & en & hd & hn & H1 & H2 & H3 & H4 & H5 & H6).
  rewrite (simple_profile_run _ _ _ _ _ _ _ _ _ _ Hwd H1 H2 H3 H4 H5 H6).
  cbn [result final dataframe]. rewrite Hfreq. split; [by eexists|].
  eexists. split; [apply set_column_lookup | apply raw_values_length].
Qed.

(** X4: a call whose factors are complete overwrites the working column:
    the frame it leaves is the same whatever calls were made before on the
    instance. *)
Theorem working_column_overwritten (annual_demand : float) (kw : kwargs)
    (self : IndustrialLoadProfile) (calls : list (float * kwargs)) :
  factors_complete (arg_profile_factors kw) →
  final (simple_profile annual_demand kw (run_calls calls self)) =
    final (simple_profile annual_demand kw self).
Proof.
  intros Hc.
  destruct (run_calls_frame calls self) as [Hidx Hcols].
  set (self' := run_calls calls self) in *.
  assert (∀ c : column,
    <["ind" := c]> (columns (dataframe self')) =
    <["ind" := c]> (columns (dataframe self))) as Hins.
  { intros c. apply map_eq. intros name.
    destruct (decide (name = "ind")) as [->|Hne].
    - by rewrite !lookup_insert_eq.
    - rewrite !lookup_insert_ne by done. by apply Hcols. }
  destruct (complete_factors _ Hc)
    as (wd & wn & ed & en & hd & hn & H1 & H2 & H3 & H4 & H5 & H6).
  assert (weekday_column self' = weekday_column self) as Hwd'
    by (by apply Hcols).
  destruct (weekday_column self) as [weekday|] eqn:Hwd.
  - rewrite !(simple_profile_run _ _ _ weekday wd wn ed en hd hn) by done.
    cbn [final]. unfold set_column. by rewrite Hidx, Hins.
  - rewrite !simple_profile_no_weekday;
      [| by eapply check_passes | done | by eapply check_passes | done].
    cbn [final]. unfold set_column_const, set_column. by rewrite Hidx, Hins.
Qed.

(** X5: only the six entries of [profile_factors] are read.  Two complete
    factor mappings that agree on them, whatever other keys they hold,
    give the same outcome: the same series, log and frame. *)
Theorem only_six_entries_are_read (annual_demand : float) (kw : kwargs)
    (pf1 pf2 : factors) (self : IndustrialLoadProfile) :
  factors_complete pf1 →
  (∀ g w, g ∈ groups → w ∈ windows →
          get_factor pf1 g w = get_factor pf2 g w) →
  simple_profile annual_demand (replace_factors kw pf1) self =
    simple_profile annual_demand (replace_factors kw pf2) self.
Proof.
  intros Hc Hagree.
  destruct (complete_factors _ Hc)
    as (wd & wn & ed & en & hd & hn & H1 & H2 & H3 & H4 & H5 & H6).
  assert (∀ g w x, g ∈ groups → w ∈ windows →
            get_factor pf1 g w = Some x → get_factor pf2 g w = Some x)
    as Hto by (intros g w x Hg Hw <-; symmetry; by apply Hagree).
  destruct (weekday_column self) as [weekday|] eqn:Hwd.
  - rewrite (simple_profile_run _ (replace_factors kw pf1) _ weekday
               wd wn ed en hd hn) by done.
    rewrite (simple_profile_run _ (replace_factors kw pf2) _ weekday
               wd wn ed en hd hn);
      [reflexivity | done | apply Hto; [by repeat constructor..|done]..].
  - rewrite !simple_profile_no_weekday; [done | | done | | done];
      eapply check_passes;
      first [eassumption | apply Hto; [by repeat constructor..|eassumption]].
Qed.

Section Checks.

(** Loop bodies that return quietly are skipped. *)
Lemma for_each_skip {A} (pre rest : list A) (body : A → M unit)
    (self : IndustrialLoadProfile) :
  (∀ x, x ∈ pre →
        body x self = {| final := self; logged := []; result := inr tt |}) →
  for_each (pre ++ rest) body self = for_each rest body self.
Proof.
  induction pre as [|x pre IH]; intros Hquiet; [done|].
  simpl. erewrite bind_quiet.
  - apply IH. intros y Hy. apply Hquiet. by apply elem_of_cons; right.
  - apply Hquiet. by apply elem_of_cons; left.
Qed.

(** The loop stops at the first body that raises. *)
Lemma for_each_raise {A} (x : A) (rest : list A) (body : A → M unit)
    (self : IndustrialLoadProfile) (e : exn) :
  body x self = {| final := self; logged := []; result := inl e |} →
  for_each (x :: rest) body self =
    {| final := self; logged := []; result := inl e |}.
Proof. intros H. simpl. by erewrite bind_raise. Qed.

End Checks.

(** X6: the check reports the first defect in the order week, weekend,
    holiday.  When the groups before [key] are complete, a missing [key] is
    reported by the group message; a [key] without ["day"] by the day
    message, whether or not ["night"] is there; a [key] with ["day"] and
    without ["night"] by the night message.  Later groups are not looked
    at. *)
Theorem first_defect_is_reported (annual_demand : float) (kw : kwargs)
    (self : IndustrialLoadProfile) (pre post : list string) (key : string) :
  groups = pre ++ key :: post →
  (∀ g, g ∈ pre →
        is_Some (get_factor (arg_profile_factors kw) g "day") ∧
        is_Some (get_factor (arg_profile_factors kw) g "night")) →
  let pf := arg_profile_factors kw in
  let raised msg :=
    simple_profile annual_demand kw self =
      {| final := self; logged := []; result := inl (ValueError msg) |} in
  (pf !! key = None → raised (missing_group_message key)) ∧
  (∀ sub, pf !! key = Some sub → sub !! "day" = None →
          raised (missing_day_message key)) ∧
  (∀ sub, pf !! key = Some sub → is_Some (sub !! "day") →
          sub !! "night" = None →
          raised (missing_night_message key)).
Proof.
  intros Hsplit Hpre pf raised. subst raised pf.
  assert (∀ msg,
    check_key (arg_profile_factors kw) key self =
      {| final := self; logged := []; result := inl (ValueError msg) |} →
    simple_profile annual_demand kw self =
      {| final := self; logged := []; result := inl (ValueError msg) |})
    as Hraise.
  { intros msg Hkey. apply simple_profile_invalid.
    change ["week"; "weekend"; "holiday"] with groups. rewrite Hsplit.
    rewrite for_each_skip; [by apply for_each_raise|].
    intros g Hg. destruct (Hpre g Hg) as [[d Hd] [n Hn]].
    by eapply check_key_ok. }
  split_and!.
  - intros Hnone. apply Hraise. unfold check_key. by rewrite Hnone.
  - intros sub Hsub Hday. apply Hraise. unfold check_key.
    by rewrite Hsub, Hday.
  - intros sub Hsub [d Hday] Hnight. apply Hraise. unfold check_key.
    by rewrite Hsub, Hday, Hnight.
Qed.

(** X7: the filter series built from the positions of
    [indexer_between_time] is as long as the index and holds [True] exactly
    at the timestamps of the window, both bounds included: between [a] and
    [b] when [a] is not later than [b], and from [a] over midnight to [b]
    otherwise. *)
Theorem window_filter_marks_window (idx : DatetimeIndex) (a b : time)
    (i : nat) (t : Z) :
  time_valid a → time_valid b →
  values idx !! i = Some t →
  length (window_filter idx a b) = length (values idx) ∧
  window_filter idx a b !! i =
    Some (if time_to_micros a <=? time_to_micros b
          then (time_to_micros a <=? get_time_micros t) &&
               (get_time_micros t <=? time_to_micros b)
          else (time_to_micros a <=? get_time_micros t) ||
               (get_time_micros t <=? time_to_micros b)).
Proof.
  intros Ha Hb Ht. unfold window_filter. rewrite filter_series.
  split; [apply length_fmap|].
  rewrite list_lookup_fmap, Ht. cbn [fmap option_fmap option_map].
  unfold between_time_at. by rewrite time_leb_micros.
Qed.

(** X8: when [am] and [pm] are the same time of day, both windows shrink
    to that one instant: every timestamp at another time of day is in
    neither, no assignment selects it, and its raw value stays 0.0. *)
Theorem equal_bounds_leave_zero (annual_demand : float) (kw : kwargs)
    (self : IndustrialLoadProfile) (labels : list Z) (i : nat) (t w : Z) :
  has_weekdays self labels →
  factors_complete (arg_profile_factors kw) →
  time_valid (arg_am kw) → time_valid (arg_pm kw) →
  time_to_micros (arg_am kw) = time_to_micros (arg_pm kw) →
  values (index (dataframe self)) !! i = Some t →
  labels !! i = Some w →
  get_time_micros t ≠ time_to_micros (arg_am kw) →
  day_filter_at kw t = false ∧ night_filter_at kw t = false ∧
  ind_column (final (simple_profile annual_demand kw self)) !! i =
    Some Float.zero.
Proof.
  intros Hwf Hc Ham Hpm Heq Ht Hw Hne.
  assert (day_filter_at kw t = false ∧ night_filter_at kw t = false)
    as [Hday Hnight].
  { unfold day_filter_at, night_filter_at, between_time_at.
    rewrite !time_leb_micros by done. rewrite <- Heq.
    rewrite Z.leb_refl.
    destruct (Z.leb_spec (time_to_micros (arg_am kw)) (get_time_micros t)),
      (Z.leb_spec (get_time_micros t) (time_to_micros (arg_am kw)));
      simpl; try done; lia. }
  split; [done|]. split; [done|].
  destruct (complete_factors _ Hc)
    as (wd & wn & ed & en & hd & hn & H1 & H2 & H3 & H4 & H5 & H6).
  rewrite (ind_column_lookup _ _ _ _ _ _ _ _ _ _ _ _ _ Hwf
             H1 H2 H3 H4 H5 H6 Ht Hw).
  unfold bucket_filters. by rewrite Hday, Hnight.
Qed.

(** X9: when [am] and [pm] differ, no timestamp whose label is in a group
    is left out: its raw value is a factor of the last group that holds
    its label, the night factor when the night filter holds and the day
    factor otherwise. *)
Theorem classified_timestamp_gets_factor (annual_demand : float)
    (kw : kwargs) (self : IndustrialLoadProfile) (labels : list Z)
    (i : nat) (t w : Z) (g : string) :
  has_weekdays self labels →
  factors_complete (arg_profile_factors kw) →
  time_valid (arg_am kw) → time_valid (arg_pm kw) →
  time_to_micros (arg_am kw) ≠ time_to_micros (arg_pm kw) →
  values (index (dataframe self)) !! i = Some t →
  labels !! i = Some w →
  last_group kw w = Some g →
  g ∈ groups ∧
  ind_column (final (simple_profile annual_demand kw self)) !! i =
    get_factor (arg_profile_factors kw) g
      (if night_filter_at kw t then "night" else "day") ∧
  is_Some (ind_column (final (simple_profile annual_demand kw self)) !! i).
Proof.
  intros Hwf Hc Ham Hpm Hne Ht Hw Hg.
  pose proof (windows_cover _ _ t Ham Hpm Hne) as Hcover.
  fold (day_filter_at kw t) (night_filter_at kw t) in Hcover.
  destruct (complete_factors _ Hc)
    as (wd & wn & ed & en & hd & hn & H1 & H2 & H3 & H4 & H5 & H6).
  rewrite (ind_column_lookup _ _ _ _ _ _ _ _ _ _ _ _ _ Hwf
             H1 H2 H3 H4 H5 H6 Ht Hw).
  unfold bucket_filters, last_group, groups in *.
  destruct (bool_decide (w ∈ arg_holiday kw)),
    (bool_decide (w ∈ arg_weekend kw)), (bool_decide (w ∈ arg_week kw)),
    (night_filter_at kw t), (day_filter_at kw t);
    try discriminate; injection Hg as <-; cbn [andb];
    (split_and!; [by repeat constructor | congruence | by eexists]).
Qed.

Section Shape.

(** The returned value at a position comes from the raw value there. *)
Lemma normalize_lookup (raw : list float) (total annual_demand
    time_interval : float) (i : nat) (x : float) :
  raw !! i = Some x →
  normalize raw total annual_demand time_interval !! i =
    Some (x / total * annual_demand / time_interval)%float.
Proof. intros Hx. unfold normalize. by rewrite list_lookup_fmap, Hx. Qed.

(** What a call that returns has returned and left in the column. *)
Lemma returned_series (annual_demand : float) (kw : kwargs)
    (self : IndustrialLoadProfile) (out : list float) :
  result (simple_profile annual_demand kw self) = inr out →
  ∃ n, freq (index (dataframe self)) = Some (Tick n) ∧
    let raw := ind_column (final (simple_profile annual_demand kw self)) in
    out = normalize raw (series_sum raw) annual_demand
            (time_interval_hours n).
Proof.
  destruct (simple_profile_cases annual_demand kw self)
    as [(msg & ->) | [(_ & ->)
       | (weekday & wd & wn & ed & en & hd & hn
          & Hwd & H1 & H2 & H3 & H4 & H5 & H6)]]; [done..|].
  rewrite (ind_column_run _ _ _ _ _ _ _ _ _ _ Hwd H1 H2 H3 H4 H5 H6).
  rewrite (simple_profile_run _ _ _ _ _ _ _ _ _ _ Hwd H1 H2 H3 H4 H5 H6).
  cbn [result].
  destruct (freq (index (dataframe self))) as [[n|repr]|]; [|done..].
  intros [= <-]. by exists n.
Qed.

End Shape.


(** X11: two timestamps that the six filters treat alike get the same
    returned value. *)
Theorem same_bucket_same_value (annual_demand : float) (kw : kwargs)
    (self : IndustrialLoadProfile) (labels : list Z) (out : list float)
    (i j : nat) (t t' w w' : Z) :
  has_weekdays self labels →
  result (simple_profile annual_demand kw self) = inr out →
  values (index (dataframe self)) !! i = Some t →
  values (index (dataframe self)) !! j = Some t' →
  labels !! i = Some w →
  labels !! j = Some w' →
  bucket_filters kw t w = bucket_filters kw t' w' →
  out !! i = out !! j ∧ is_Some (out !! i).
Proof.
  intros Hwf Hres Ht Ht' Hw Hw' Hsame.
  destruct (returned_series _ _ _ _ Hres) as (n & _ & Hout).
  destruct (simple_profile_cases annual_demand kw self)
    as [(msg & E) | [(_ & E)
       | (weekday & wd & wn & ed & en & hd & hn
          & Hwd & H1 & H2 & H3 & H4 & H5 & H6)]];
    [by rewrite E in Hres..|].
  pose proof (ind_column_lookup annual_demand _ _ _ _ _ _ _ _ _ _ _ _ Hwf
                H1 H2 H3 H4 H5 H6 Ht Hw) as Hi.
  pose proof (ind_column_lookup annual_demand _ _ _ _ _ _ _ _ _ _ _ _ Hwf
                H1 H2 H3 H4 H5 H6 Ht' Hw') as Hj.
  rewrite <- Hsame in Hj. cbv zeta in Hout. subst out.
  rewrite (normalize_lookup _ _ _ _ _ _ Hi).
  rewrite (normalize_lookup _ _ _ _ _ _ Hj). by split.
Qed.

(** X14: a NaN in the raw profile, which takes a NaN factor, does not stop
    the call: the diagnostic is logged once and the returned value at that
    position is NaN. *)
Theorem nan_is_logged_and_returned (annual_demand : float) (kw : kwargs)
    (self : IndustrialLoadProfile) (out : list float) (i : nat) :
  let o := simple_profile annual_demand kw self in
  result o = inr out →
  ind_column (final o) !! i = Some NaN →
  logged o = [nan_message] ∧ out !! i = Some NaN.
Proof.
  intros o Hres Hnan. subst o.
  destruct (returned_series _ _ _ _ Hres) as (n & _ & Hout).
  cbv zeta in Hout. split.
  - clear Hout. revert Hres Hnan.
    destruct (simple_profile_cases annual_demand kw self)
      as [(msg & ->) | [(_ & ->)
         | (weekday & wd & wn & ed & en & hd & hn
            & Hwd & H1 & H2 & H3 & H4 & H5 & H6)]]; [done..|].
    rewrite (ind_column_run _ _ _ _ _ _ _ _ _ _ Hwd H1 H2 H3 H4 H5 H6).
    rewrite (simple_profile_run _ _ _ _ _ _ _ _ _ _ Hwd H1 H2 H3 H4 H5 H6).
    cbn [logged]. intros _ Hnan.
    assert (isnull_any (raw_values (index (dataframe self)) weekday kw
                          wd wn ed en hd hn) = true) as ->; [|done].
    unfold isnull_any. apply existsb_exists. exists NaN.
    split; [|done]. apply list_elem_of_In. by eapply list_elem_of_lookup_2.
  - subst out. rewrite (normalize_lookup _ _ _ _ _ _ Hnan).
    by rewrite nan_div, nan_mul, nan_div.
Qed.

(** ** Concrete runs of the further properties *)

Lemma monday_profile_returned :
  result (simple_profile (Float.of_Z 960) no_kwargs monday)
    = inr monday_profile.
Proof. vm_compute. reflexivity. Defined.

Lemma default_times_valid :
  time_valid (arg_am no_kwargs) ∧ time_valid (arg_pm no_kwargs).
Proof. unfold time_valid. simpl. lia. Defined.

(** X1 on the Monday index. *)
Lemma monday_profile_length :
  length monday_profile = length (values (index (dataframe monday))).
Proof.
  apply (returned_series_length (Float.of_Z 960) no_kwargs monday
           monday_profile).
  exact monday_profile_returned.
Defined.

(** X2 on the generator with an empty index. *)
Lemma empty_generator_returns_empty :
  result (simple_profile (Float.of_Z 960) no_kwargs empty_generator)
    = inr [] ∧
  logged (simple_profile (Float.of_Z 960) no_kwargs empty_generator) = [].
Proof.
  apply (empty_index_returns_empty (Float.of_Z 960) no_kwargs
           empty_generator (IntCol []) 900000000000).
  - reflexivity.
  - vm_compute. reflexivity.
  - reflexivity.
  - exact default_factors_complete.
Defined.

(** X3 on the Monday index without a frequency. *)
Lemma monday_without_freq_raises :
  let o := simple_profile (Float.of_Z 960) no_kwargs monday_without_freq in
  result o =
    inl (AttributeError "'NoneType' object has no attribute 'nanos'") ∧
  ∃ raw, columns (dataframe (final o)) !! "ind" = Some (FloatCol raw) ∧
         length raw =
           length (values (index (dataframe monday_without_freq))).
Proof.
  apply (missing_freq_raises_after_write (Float.of_Z 960) no_kwargs
           monday_without_freq (IntCol (replicate 96 1))).
  - vm_compute. reflexivity.
  - reflexivity.
  - exact default_factors_complete.
Defined.

(** X4 on the Monday generator after a call with other week days. *)
Lemma monday_column_overwritten :
  final (simple_profile (Float.of_Z 960) no_kwargs
           (run_calls [(Float.of_Z 1, week_without_monday)] monday)) =
    final (simple_profile (Float.of_Z 960) no_kwargs monday).
Proof.
  apply (working_column_overwritten (Float.of_Z 960) no_kwargs monday
           [(Float.of_Z 1, week_without_monday)]).
  exact default_factors_complete.
Defined.

(** X5 on the default factors with and without entries nobody reads. *)
Lemma extra_entries_are_ignored :
  simple_profile (Float.of_Z 960) (replace_factors no_kwargs default_factors)
    monday =
  simple_profile (Float.of_Z 960)
    (replace_factors no_kwargs factors_with_extras) monday.
Proof.
  apply (only_six_entries_are_read (Float.of_Z 960) no_kwargs
           default_factors factors_with_extras monday).
  - exact default_factors_complete.
  - intros g w Hg Hw. unfold groups, windows in *. six_entries;
      vm_compute; reflexivity.
Defined.

(** X6 on the default factors without the night entry of the weekend
    group: the week group is complete, the weekend group is reported. *)
Lemma weekend_night_is_reported :
  let kw := with_factors factors_without_night in
  let pf := arg_profile_factors kw in
  let raised msg :=
    simple_profile (Float.of_Z 960) kw monday =
      {| final := monday; logged := []; result := inl (ValueError msg) |} in
  (pf !! "weekend" = None → raised (missing_group_message "weekend")) ∧
  (∀ sub, pf !! "weekend" = Some sub → sub !! "day" = None →
          raised (missing_day_message "weekend")) ∧
  (∀ sub, pf !! "weekend" = Some sub → is_Some (sub !! "day") →
          sub !! "night" = None →
          raised (missing_night_message "weekend")).
Proof.
  apply (first_defect_is_reported (Float.of_Z 960)
           (with_factors factors_without_night) monday
           ["week"] ["holiday"] "weekend").
  - reflexivity.
  - intros g Hg. six_entries. vm_compute. split; eexists; reflexivity.
Defined.

(** X7 on the Monday index, the default day window and 07:00. *)
Lemma day_filter_at_0700 :
  length (window_filter (quarter_hours 4) (arg_am no_kwargs)
            (arg_pm no_kwargs))
    = length (values (quarter_hours 4)) ∧
  window_filter (quarter_hours 4) (arg_am no_kwargs) (arg_pm no_kwargs)
    !! 28%nat =
    Some (if time_to_micros (arg_am no_kwargs)
             <=? time_to_micros (arg_pm no_kwargs)
          then (time_to_micros (arg_am no_kwargs)
                  <=? get_time_micros at_0700) &&
               (get_time_micros at_0700
                  <=? time_to_micros (arg_pm no_kwargs))
          else (time_to_micros (arg_am no_kwargs)
                  <=? get_time_micros at_0700) ||
               (get_time_micros at_0700
                  <=? time_to_micros (arg_pm no_kwargs))).
Proof.
  apply (window_filter_marks_window (quarter_hours 4) (arg_am no_kwargs)
           (arg_pm no_kwargs) 28 at_0700).
  - exact (proj1 default_times_valid).
  - exact (proj2 default_times_valid).
  - vm_compute. reflexivity.
Defined.

(** X8 on the Monday index with [am] and [pm] both 07:00, at 07:15. *)
Lemma equal_bounds_at_0715 :
  day_filter_at equal_bounds at_0715 = false ∧
  night_filter_at equal_bounds at_0715 = false ∧
  ind_column (final (simple_profile (Float.of_Z 960) equal_bounds monday))
    !! 29%nat = Some Float.zero.
Proof.
  apply (equal_bounds_leave_zero (Float.of_Z 960) equal_bounds monday
           (replicate 96 1) 29 at_0715 1).
  - exact monday_has_weekdays.
  - exact default_factors_complete.
  - unfold time_valid. simpl. lia.
  - unfold time_valid. simpl. lia.
  - reflexivity.
  - vm_compute. reflexivity.
  - reflexivity.
  - vm_compute. discriminate.
Defined.

(** X9 on the Monday index with all defaults, at 07:00. *)
Lemma monday_0700_gets_week_factor :
  "week" ∈ groups ∧
  ind_column (final (simple_profile (Float.of_Z 960) no_kwargs monday))
    !! 28%nat =
    get_factor (arg_profile_factors no_kwargs) "week"
      (if night_filter_at no_kwargs at_0700 then "night" else "day") ∧
  is_Some (ind_column
             (final (simple_profile (Float.of_Z 960) no_kwargs monday))
             !! 28%nat).
Proof.
  apply (classified_timestamp_gets_factor (Float.of_Z 960) no_kwargs monday
           (replicate 96 1) 28 at_0700 1 "week").
  - exact monday_has_weekdays.
  - exact default_factors_complete.
  - exact (proj1 default_times_valid).
  - exact (proj2 default_times_valid).
  - vm_compute. discriminate.
  - vm_compute. reflexivity.
  - reflexivity.
  - vm_compute. reflexivity.
Defined.


(** X11 on the Monday index at 07:30 and 07:45. *)
Lemma monday_0730_and_0745_agree :
  monday_profile !! 30%nat = monday_profile !! 31%nat ∧
  is_Some (monday_profile !! 30%nat).
Proof.
  apply (same_bucket_same_value (Float.of_Z 960) no_kwargs monday
           (replicate 96 1) monday_profile 30 31 at_0730 at_0745 1 1).
  - exact monday_has_weekdays.
  - exact monday_profile_returned.
  - vm_compute. reflexivity.
  - vm_compute. reflexivity.
  - reflexivity.
  - reflexivity.
  - vm_compute. reflexivity.
Defined.

(** X14 on the Monday index with NaN as the week day factor, at 07:15. *)
Lemma nan_week_day_factor_is_logged :
  let o := simple_profile (Float.of_Z 960) (with_factors factors_with_nan)
             monday in
  logged o = [nan_message] ∧
  (match result o with inr out => out | inl _ => [] end) !! 29%nat
    = Some NaN.
Proof.
  apply (nan_is_logged_and_returned (Float.of_Z 960)
           (with_factors factors_with_nan) monday _ 29).
  - vm_compute. reflexivity.
  - vm_compute. reflexivity.
Defined.

(** X15 on the index of three business days. *)
Lemma business_days_raise :
  let o := simple_profile (Float.of_Z 960) no_kwargs business_days in
  (∃ msg, result o = inl (ValueError msg)) ∧
  ∃ raw, columns (dataframe (final o)) !! "ind" = Some (FloatCol raw) ∧
         length raw = length (values (index (dataframe business_days))).
Proof.
  apply (non_fixed_freq_raises_after_write (Float.of_Z 960) no_kwargs
           business_days (IntCol [1; 2; 3]) "<BusinessDay>").
  - vm_compute. reflexivity.
  - reflexivity.
  - exact default_factors_complete.
Defined.
